(** * UniCollab: the project-details page

    A shallow embedding of [src/pages/ProjectDetailsViewerPage.tsx]: the
    permission derivation ([useMemo]), the event handlers of the page,
    the top-level render branches and the lifecycle of the realtime chat
    subscription.

    Conventions.
    - A JavaScript string is the list of its UTF-16 code units.
    - [T | null] and [T | undefined] are [option T].
    - A handler is a computation in the monad [M]: it reads the values its
      closure captured at render time (a [PageState] snapshot and the
      [Context]), writes the live component state through the setters and
      records every backend call and notification in a trace. *)

From Stdlib Require Import List String Ascii NArith Bool Arith Lia.
Import ListNotations.

Set Implicit Arguments.

(* ================================================================== *)
(** ** JavaScript values *)

Definition jsstring := list N.

(** A string literal of the source, as code units. *)
Definition js (s : string) : jsstring :=
  map N_of_ascii (list_ascii_of_string s).

(** [a === b] on strings. *)
Fixpoint strict_eq (a b : jsstring) : bool :=
  match a, b with
  | [], [] => true
  | x :: a', y :: b' => N.eqb x y && strict_eq a' b'
  | _, _ => false
  end.

(** Truthiness of a string: only the empty string is falsy. *)
Definition truthy_str (s : jsstring) : bool :=
  match s with [] => false | _ :: _ => true end.

(** Truthiness of [string | null | undefined]. *)
Definition truthy_ostr (s : option jsstring) : bool :=
  match s with Some s => truthy_str s | None => false end.

(** Truthiness of [object | null | undefined] ([!!x]). *)
Definition truthy (A : Type) (x : option A) : bool :=
  match x with Some _ => true | None => false end.

(** [a || b] where [a : string | undefined] and [b : string]. *)
Definition or_str (a : option jsstring) (b : jsstring) : jsstring :=
  if truthy_ostr a then match a with Some s => s | None => b end else b.

(** ECMAScript WhiteSpace and LineTerminator code points, the characters
    [String.prototype.trim] strips. They all lie in the basic plane. *)
Definition is_white_space (c : N) : bool :=
  (N.eqb c 9 || N.eqb c 10 || N.eqb c 11 || N.eqb c 12 || N.eqb c 13
   || N.eqb c 32 || N.eqb c 160 || N.eqb c 5760
   || (N.leb 8192 c && N.leb c 8202)
   || N.eqb c 8232 || N.eqb c 8233 || N.eqb c 8239 || N.eqb c 8287
   || N.eqb c 12288 || N.eqb c 65279)%bool.

Fixpoint trimStart (s : jsstring) : jsstring :=
  match s with
  | [] => []
  | c :: s' => if is_white_space c then trimStart s' else s
  end.

Definition trimEnd (s : jsstring) : jsstring := rev (trimStart (rev s)).

Definition trim (s : jsstring) : jsstring := trimEnd (trimStart s).

(* ================================================================== *)
(** ** Enumerations of [types.ts] *)

(** Modelled from the spec: [types.ts] is not part of the sources; the
    glossary names the contributor role, every other role is [OTHER]. *)
Module UserRole.
Inductive t := CONTRIBUTOR | OTHER.
Definition eqb (a b : t) : bool :=
  match a, b with
  | CONTRIBUTOR, CONTRIBUTOR | OTHER, OTHER => true
  | _, _ => false
  end.
End UserRole.

(** Modelled from the spec: the data model lists PENDING, SHORTLISTED,
    ACCEPTED and REJECTED; the page compares against all four. *)
Module ApplicationStatus.
Inductive t := PENDING | SHORTLISTED | ACCEPTED | REJECTED.
Definition eqb (a b : t) : bool :=
  match a, b with
  | PENDING, PENDING | SHORTLISTED, SHORTLISTED
  | ACCEPTED, ACCEPTED | REJECTED, REJECTED => true
  | _, _ => false
  end.
(** The text a template literal prints for a status. *)
Definition text (s : t) : jsstring :=
  match s with
  | PENDING => js "PENDING"
  | SHORTLISTED => js "SHORTLISTED"
  | ACCEPTED => js "ACCEPTED"
  | REJECTED => js "REJECTED"
  end.
End ApplicationStatus.

(** Modelled from the spec: OPEN, IN_PROGRESS, COMPLETED and "other". *)
Module ProjectStatus.
Inductive t := OPEN | IN_PROGRESS | COMPLETED | OTHER.
Definition eqb (a b : t) : bool :=
  match a, b with
  | OPEN, OPEN | IN_PROGRESS, IN_PROGRESS
  | COMPLETED, COMPLETED | OTHER, OTHER => true
  | _, _ => false
  end.
End ProjectStatus.

(** Modelled from the spec: only COMPLETED is named. *)
Module MilestoneStatus.
Inductive t := COMPLETED | OTHER.
End MilestoneStatus.

(** The four severities the page posts. *)
Module NotificationType.
Inductive t := SUCCESS | ERROR | WARNING | INFO.
End NotificationType.

(* ================================================================== *)
(** ** Records of [types.ts], with the fields the page reads *)

Module User.
Record t := { id : jsstring; role : UserRole.t }.
End User.

Module Application.
Record t := {
  id : jsstring;
  contributor_user_id : jsstring;
  status : ApplicationStatus.t;
  proposal_text : jsstring
}.
(** [{ ...a, status: s }] *)
Definition with_status (a : t) (s : ApplicationStatus.t) : t :=
  {| id := id a; contributor_user_id := contributor_user_id a;
     status := s; proposal_text := proposal_text a |}.
End Application.

Module Milestone.
Record t := {
  id : jsstring;
  description : jsstring;
  amount : N;
  status : MilestoneStatus.t
}.
(** [{ ...m, status: s }] *)
Definition with_status (m : t) (s : MilestoneStatus.t) : t :=
  {| id := id m; description := description m; amount := amount m;
     status := s |}.
End Milestone.

Module Sender.
Record t := { id : jsstring; name : jsstring;
              profile_photo_url : option jsstring }.
End Sender.

Module Message.
Record t := {
  id : jsstring;
  project_id : jsstring;
  sender_user_id : jsstring;
  message_text : jsstring;
  attachment_url : option jsstring;
  created_at : jsstring;
  sender_user : option Sender.t
}.
(** [{ ...m, sender_user: s }] *)
Definition with_sender_user (m : t) (s : option Sender.t) : t :=
  {| id := id m; project_id := project_id m;
     sender_user_id := sender_user_id m; message_text := message_text m;
     attachment_url := attachment_url m; created_at := created_at m;
     sender_user := s |}.
End Message.

Module Project.
Record t := {
  id : jsstring;
  title : jsstring;
  posted_by_user_id : jsstring;
  status : ProjectStatus.t;
  milestones : option (list Milestone.t);
  applications : option (list Application.t)
}.
(** [{ ...p, status: s }] *)
Definition with_status (p : t) (s : ProjectStatus.t) : t :=
  {| id := id p; title := title p;
     posted_by_user_id := posted_by_user_id p; status := s;
     milestones := milestones p; applications := applications p |}.
(** [{ ...p, milestones: ms }] *)
Definition with_milestones (p : t) (ms : option (list Milestone.t)) : t :=
  {| id := id p; title := title p;
     posted_by_user_id := posted_by_user_id p; status := status p;
     milestones := ms; applications := applications p |}.
End Project.

(* ================================================================== *)
(** ** Permission derivation (the [useMemo] of lines 42-58) *)

Record Permissions := {
  isOwner : bool;
  isAcceptedContributor : bool;
  hasApplied : bool;
  canApply : bool;
  canChat : bool;
  canManage : bool;
  viewerApplicationStatus : option ApplicationStatus.t
}.

Definition derivePermissions (user : option User.t)
    (project : option Project.t) (applications : list Application.t)
    : Permissions :=
  match project, user with
  | Some project, Some user =>
    let owner := strict_eq (User.id user) (Project.posted_by_user_id project) in
    let acceptedApp :=
      find (fun app =>
              strict_eq (Application.contributor_user_id app) (User.id user)
              && ApplicationStatus.eqb (Application.status app)
                   ApplicationStatus.ACCEPTED)
           applications in
    let application :=
      find (fun app =>
              strict_eq (Application.contributor_user_id app) (User.id user))
           applications in
    {| isOwner := owner;
       isAcceptedContributor := truthy acceptedApp;
       hasApplied := truthy application;
       canApply :=
         UserRole.eqb (User.role user) UserRole.CONTRIBUTOR
         && negb owner && negb (truthy application)
         && ProjectStatus.eqb (Project.status project) ProjectStatus.OPEN;
       canChat := owner || truthy acceptedApp;
       canManage := owner;
       viewerApplicationStatus := option_map Application.status application |}
  | _, _ =>
    {| isOwner := false; isAcceptedContributor := false; hasApplied := false;
       canApply := false; canChat := false; canManage := false;
       viewerApplicationStatus := None |}
  end.

(* ================================================================== *)
(** ** Component state (the [useState] cells of lines 23-32) *)

(** A DOM [File] picked in the chat box. *)
Record File := { file_name : jsstring; file_size : N }.

(** A [RealtimeChannel]: its topic and the identity of the object. *)
Module Channel.
Record t := { topic : jsstring; uid : nat }.
Definition same (a b : t) : bool := Nat.eqb (uid a) (uid b).
End Channel.

Record PageState := {
  project : option Project.t;
  applications : list Application.t;
  messages : list Message.t;
  newMessage : jsstring;
  attachment : option File;
  isLoading : bool;
  error : option jsstring;
  isApplying : bool;
  isSendingMessage : bool;
  chatChannel : option Channel.t
}.

(** The state of the first render; [applying] is
    [location.pathname.endsWith('/apply')]. *)
Definition initialState (applying : bool) : PageState :=
  {| project := None; applications := []; messages := []; newMessage := [];
     attachment := None; isLoading := true; error := None;
     isApplying := applying; isSendingMessage := false; chatChannel := None |}.

(** What the hooks [useParams] and [useAuth] hand to the component. *)
Record Context := { projectId : option jsstring; user : option User.t }.

(** The permissions a render derives from its context and its state. *)
Definition permissionsOf (ctx : Context) (st : PageState) : Permissions :=
  derivePermissions (user ctx) (project st) (applications st).

(** *** State setters: [setX(prev => f(prev))] *)

Definition updProject (f : option Project.t -> option Project.t)
    (st : PageState) : PageState :=
  {| project := f (project st); applications := applications st;
     messages := messages st; newMessage := newMessage st;
     attachment := attachment st; isLoading := isLoading st;
     error := error st; isApplying := isApplying st;
     isSendingMessage := isSendingMessage st; chatChannel := chatChannel st |}.

Definition updApplications (f : list Application.t -> list Application.t)
    (st : PageState) : PageState :=
  {| project := project st; applications := f (applications st);
     messages := messages st; newMessage := newMessage st;
     attachment := attachment st; isLoading := isLoading st;
     error := error st; isApplying := isApplying st;
     isSendingMessage := isSendingMessage st; chatChannel := chatChannel st |}.

Definition updMessages (f : list Message.t -> list Message.t)
    (st : PageState) : PageState :=
  {| project := project st; applications := applications st;
     messages := f (messages st); newMessage := newMessage st;
     attachment := attachment st; isLoading := isLoading st;
     error := error st; isApplying := isApplying st;
     isSendingMessage := isSendingMessage st; chatChannel := chatChannel st |}.

Definition updNewMessage (v : jsstring) (st : PageState) : PageState :=
  {| project := project st; applications := applications st;
     messages := messages st; newMessage := v;
     attachment := attachment st; isLoading := isLoading st;
     error := error st; isApplying := isApplying st;
     isSendingMessage := isSendingMessage st; chatChannel := chatChannel st |}.

Definition updAttachment (v : option File) (st : PageState) : PageState :=
  {| project := project st; applications := applications st;
     messages := messages st; newMessage := newMessage st;
     attachment := v; isLoading := isLoading st;
     error := error st; isApplying := isApplying st;
     isSendingMessage := isSendingMessage st; chatChannel := chatChannel st |}.

Definition updIsLoading (v : bool) (st : PageState) : PageState :=
  {| project := project st; applications := applications st;
     messages := messages st; newMessage := newMessage st;
     attachment := attachment st; isLoading := v;
     error := error st; isApplying := isApplying st;
     isSendingMessage := isSendingMessage st; chatChannel := chatChannel st |}.

Definition updError (v : option jsstring) (st : PageState) : PageState :=
  {| project := project st; applications := applications st;
     messages := messages st; newMessage := newMessage st;
     attachment := attachment st; isLoading := isLoading st;
     error := v; isApplying := isApplying st;
     isSendingMessage := isSendingMessage st; chatChannel := chatChannel st |}.

Definition updIsSendingMessage (v : bool) (st : PageState) : PageState :=
  {| project := project st; applications := applications st;
     messages := messages st; newMessage := newMessage st;
     attachment := attachment st; isLoading := isLoading st;
     error := error st; isApplying := isApplying st;
     isSendingMessage := v; chatChannel := chatChannel st |}.

(* ================================================================== *)
(** ** The collaborators: backend calls and the notification sink *)

(** What a [catch (err: any)] clause can read of the thrown value. The
    value is taken to be an object, and [message] is its property, [None]
    when the property is undefined. A promise rejected with null or
    undefined, on which reading [err.message] itself throws, has no term
    here. *)
Record ErrorObj := { message : option jsstring }.

(** [new Error(msg)] *)
Definition newError (msg : jsstring) : ErrorObj := {| message := Some msg |}.

(** The [{ data, error }] object a data-access call resolves to. *)
Record Reply (A : Type) := { data : option A; reply_error : option ErrorObj }.

(** The [{ publicUrl, error }] object [uploadFile] resolves to. *)
Record UploadReply := {
  publicUrl : option jsstring;
  upload_error : option ErrorObj
}.

(** A promise either resolves or rejects; [await] rethrows a rejection. *)
Inductive Outcome (A : Type) :=
| Resolved (a : A)
| Rejected (e : ErrorObj).
Arguments Rejected {A} e.

(** The answers of the backend ([apiService.ts] and the [supabase] client
    are not part of the sources: every answer is possible). *)
Record Backend := {
  getProjectById : jsstring -> Outcome (Reply Project.t);
  selectMessages : jsstring -> Outcome (Reply (list Message.t));
  selectSender : jsstring -> Outcome (Reply Sender.t);
  uploadFile : File -> jsstring -> Outcome UploadReply;
  sendMessage :
    jsstring -> jsstring -> option jsstring -> Outcome (Reply Message.t);
  updateApplicationStatus :
    jsstring -> ApplicationStatus.t -> Outcome (Reply Application.t);
  updateMilestoneStatus :
    jsstring -> jsstring -> MilestoneStatus.t -> Outcome (Reply Milestone.t)
}.

(** What a handler does to the outside world, in the order it happens. *)
Inductive Event :=
| GetProjectById (pid : jsstring)
| SelectMessages (pid : jsstring)
| SelectSender (uid : jsstring)
| UploadFile (f : File) (bucket : jsstring)
| SendMessage (pid text : jsstring) (attachmentUrl : option jsstring)
| UpdateApplicationStatus (applicationId : jsstring)
    (newStatus : ApplicationStatus.t)
| UpdateMilestoneStatus (milestoneId pid : jsstring)
    (status : MilestoneStatus.t)
| AddNotification (msg : jsstring) (type : NotificationType.t)
    (duration : option N)
| ConsoleError (label : jsstring).

Definition isBackendCall (e : Event) : bool :=
  match e with
  | AddNotification _ _ _ | ConsoleError _ => false
  | _ => true
  end.

Definition isUpload (e : Event) : bool :=
  match e with UploadFile _ _ => true | _ => false end.

Definition isSendMessage (e : Event) : bool :=
  match e with SendMessage _ _ _ => true | _ => false end.

Definition isErrorNotification (e : Event) : bool :=
  match e with
  | AddNotification _ NotificationType.ERROR _ => true
  | _ => false
  end.

(** [`${x}`] for [x : string | undefined]; a null [x], which a template
    literal prints as null, is not told apart from an undefined one. *)
Definition template (x : option jsstring) : jsstring :=
  match x with Some s => s | None => js "undefined" end.

(* ================================================================== *)
(** ** The handler monad: live state, trace and exceptions *)

Record Store := { page : PageState; trace : list Event }.

Inductive Completion (A : Type) :=
| Normal (a : A)
| Throw (e : ErrorObj).
Arguments Throw {A} e.

Definition M (A : Type) : Type := Store -> Completion A * Store.

Definition ret (A : Type) (a : A) : M A := fun s => (Normal a, s).

Definition bind (A B : Type) (m : M A) (k : A -> M B) : M B :=
  fun s =>
    match m s with
    | (Normal a, s') => k a s'
    | (Throw e, s') => (Throw e, s')
    end.

Definition throw (A : Type) (e : ErrorObj) : M A := fun s => (Throw e, s).
Arguments throw {A} e.

(** [try { body } catch (err) { handler err }] *)
Definition tryCatch (A : Type) (body : M A) (handler : ErrorObj -> M A)
    : M A :=
  fun s =>
    match body s with
    | (Normal a, s') => (Normal a, s')
    | (Throw e, s') => handler e s'
    end.

(** [try { body } finally { fin }] *)
Definition tryFinally (A : Type) (body : M A) (fin : M unit) : M A :=
  fun s =>
    match body s with
    | (c, s') =>
      match fin s' with
      | (Normal _, s'') => (c, s'')
      | (Throw e, s'') => (Throw e, s'')
      end
    end.

Definition emit (e : Event) : M unit :=
  fun s => (Normal tt, {| page := page s; trace := trace s ++ [e] |}).

Definition modify (f : PageState -> PageState) : M unit :=
  fun s => (Normal tt, {| page := f (page s); trace := trace s |}).

(** [await call]: the call is made, then its promise settles. *)
Definition await (A : Type) (call : Event) (answer : Outcome A) : M A :=
  fun s =>
    let s' := {| page := page s; trace := trace s ++ [call] |} in
    match answer with
    | Resolved a => (Normal a, s')
    | Rejected e => (Throw e, s')
    end.

Declare Scope handler_scope.
Delimit Scope handler_scope with handler.
Notation "x <- m ;; k" := (bind m (fun x => k))
  (at level 61, m at next level, right associativity) : handler_scope.
Notation "m ;; k" := (bind m (fun _ => k))
  (at level 61, right associativity) : handler_scope.
Local Open Scope handler_scope.

Definition addNotification (msg : jsstring) (type : NotificationType.t)
    : M unit :=
  emit (AddNotification msg type None).

(** Runs a handler on a live state with an empty trace. *)
Definition run (A : Type) (m : M A) (st : PageState)
    : Completion A * Store :=
  m {| page := st; trace := [] |}.

(* ================================================================== *)
(** ** The handlers of the page

    Each handler is the closure one render creates: [ctx] and [snap] are
    the context and the state that render saw, and the computation acts
    on the live state of the component. *)

(** The updater of the realtime handler (lines 108-111). *)
Definition mergeMessage (fullMessage : Message.t) (prev : list Message.t)
    : list Message.t :=
  if existsb (fun m => strict_eq (Message.id m) (Message.id fullMessage)) prev
  then prev
  else prev ++ [fullMessage].

(** The updater of [handleApplicationStatusUpdate] (line 162). *)
Definition patchApplications (applicationId : jsstring)
    (newStatus : ApplicationStatus.t) (prev : list Application.t)
    : list Application.t :=
  map (fun a =>
         if strict_eq (Application.id a) applicationId
         then Application.with_status a newStatus
         else a)
      prev.

(** The updater of line 164. *)
Definition markInProgress (prev : option Project.t) : option Project.t :=
  match prev with
  | Some p => Some (Project.with_status p ProjectStatus.IN_PROGRESS)
  | None => None
  end.

(** The updater of [handleMarkMilestoneComplete] (line 179); [data] is the
    record the server returned, if any. *)
Definition patchMilestones (milestoneId : jsstring)
    (data : option Milestone.t) (prev : option Project.t)
    : option Project.t :=
  match prev with
  | Some p =>
    Some (Project.with_milestones p
      (option_map
         (map (fun m =>
                 if strict_eq (Milestone.id m) milestoneId
                 then match data with
                      | Some d => d
                      | None =>
                        Milestone.with_status m MilestoneStatus.COMPLETED
                      end
                 else m))
         (Project.milestones p)))
  | None => None
  end.

Section Handlers.

Variable backend : Backend.
Variable ctx : Context.
Variable snap : PageState.

(** [fetchProjectDetails], lines 60-76. *)
Definition fetchProjectDetails : M unit :=
  match projectId ctx with
  | Some pid =>
    if negb (truthy_str pid) then ret tt else
    modify (updIsLoading true) ;;
    modify (updError None) ;;
    tryFinally
      (tryCatch
         (r <- await (GetProjectById pid) (getProjectById backend pid) ;;
          match reply_error r with
          | Some projectError => throw projectError
          | None =>
            match data r with
            | None => throw (newError (js "Project not found"))
            | Some d =>
              modify (updProject (fun _ => Some d)) ;;
              modify (updApplications (fun _ =>
                match Project.applications d with
                | Some apps => apps
                | None => []
                end))
            end
          end)
         (fun err =>
            modify (updError (Some
              (or_str (message err) (js "Failed to load project details.")))) ;;
            addNotification
              (or_str (message err) (js "Failed to load project details."))
              NotificationType.ERROR))
      (modify (updIsLoading false))
  | None => ret tt
  end.

(** [fetchMessages], lines 83-93. *)
Definition fetchMessages : M unit :=
  match projectId ctx with
  | Some pid =>
    if negb (canChat (permissionsOf ctx snap)) || negb (truthy_str pid)
    then ret tt else
    tryCatch
      (r <- await (SelectMessages pid) (selectMessages backend pid) ;;
       match reply_error r with
       | Some msgError => throw msgError
       | None =>
         modify (updMessages (fun _ =>
           match data r with Some msgs => msgs | None => [] end))
       end)
      (fun err =>
         emit (ConsoleError (js "Error fetching messages:")) ;;
         addNotification (js "Failed to load chat messages.")
           NotificationType.WARNING)
  | None => ret tt
  end.

(** The callback of the realtime INSERT event, lines 105-112;
    [payload_new] is [payload.new]. *)
Definition onInsert (payload_new : Message.t) : M unit :=
  r <- await (SelectSender (Message.sender_user_id payload_new))
         (selectSender backend (Message.sender_user_id payload_new)) ;;
  let fullMessage := Message.with_sender_user payload_new (data r) in
  modify (updMessages (mergeMessage fullMessage)).

(** [handleSendMessage], lines 132-154. *)
Definition handleSendMessage : M unit :=
  match projectId ctx with
  | Some pid =>
    if negb (truthy_str pid)
       || (negb (truthy_str (trim (newMessage snap)))
           && negb (truthy (attachment snap)))
       || negb (truthy (user ctx))
    then ret tt else
    modify (updIsSendingMessage true) ;;
    tryFinally
      (tryCatch
         (attachmentUrl <-
            match attachment snap with
            | Some f =>
              up <- await (UploadFile f (js "project-chat-attachments"))
                      (uploadFile backend f (js "project-chat-attachments")) ;;
              if truthy (upload_error up) || negb (truthy_ostr (publicUrl up))
              then throw (newError
                     (or_str
                        match upload_error up with
                        | Some uploadError => message uploadError
                        | None => None
                        end
                        (js "Failed to upload attachment")))
              else ret (publicUrl up)
            | None => ret None
            end ;;
          r <- await
                 (SendMessage pid (trim (newMessage snap)) attachmentUrl)
                 (sendMessage backend pid (trim (newMessage snap))
                    attachmentUrl) ;;
          match reply_error r with
          | Some e => throw e
          | None =>
            match data r with
            | Some d => modify (updMessages (fun prev => prev ++ [d]))
            | None => ret tt
            end ;;
            modify (updNewMessage []) ;;
            modify (updAttachment None)
          end)
         (fun err =>
            addNotification
              (or_str (message err) (js "Failed to send message."))
              NotificationType.ERROR))
      (modify (updIsSendingMessage false))
  | None => ret tt
  end.

(** [handleApplicationStatusUpdate], lines 156-169. *)
Definition handleApplicationStatusUpdate (applicationId : jsstring)
    (newStatus : ApplicationStatus.t) : M unit :=
  if negb (isOwner (permissionsOf ctx snap)) || negb (truthy (project snap))
  then ret tt else
  tryCatch
    (r <- await (UpdateApplicationStatus applicationId newStatus)
            (updateApplicationStatus backend applicationId newStatus) ;;
     match reply_error r with
     | Some e => throw e
     | None =>
       addNotification
         (js "Application status updated to "
            ++ ApplicationStatus.text newStatus ++ js ".")
         NotificationType.SUCCESS ;;
       modify (updApplications (patchApplications applicationId newStatus)) ;;
       if ApplicationStatus.eqb newStatus ApplicationStatus.ACCEPTED
       then modify (updProject markInProgress)
       else ret tt
     end)
    (fun err =>
       addNotification
         (js "Failed to update application: " ++ template (message err))
         NotificationType.ERROR).

(** [handleMarkMilestoneComplete], lines 173-183. *)
Definition handleMarkMilestoneComplete (milestoneId : jsstring) : M unit :=
  match projectId ctx with
  | Some pid =>
    if negb (isOwner (permissionsOf ctx snap)) || negb (truthy_str pid)
    then ret tt else
    tryCatch
      (r <- await
              (UpdateMilestoneStatus milestoneId pid
                 MilestoneStatus.COMPLETED)
              (updateMilestoneStatus backend milestoneId pid
                 MilestoneStatus.COMPLETED) ;;
       match reply_error r with
       | Some e => throw e
       | None =>
         addNotification (js "Milestone marked as complete.")
           NotificationType.SUCCESS ;;
         modify (updProject (patchMilestones milestoneId (data r)))
       end)
      (fun err =>
         addNotification
           (js "Failed to update milestone: " ++ template (message err))
           NotificationType.ERROR)
  | None => ret tt
  end.

End Handlers.

(* ================================================================== *)
(** ** The top-level render branches (lines 185-187) *)

Inductive View :=
| SpinnerView                      (* [if (isLoading)] *)
| ErrorView (msg : jsstring)       (* [if (error)] *)
| NotFoundView                     (* [if (!project)] *)
| ProjectView (p : Project.t) (perms : Permissions).

Definition render (ctx : Context) (st : PageState) : View :=
  if isLoading st then SpinnerView else
  if truthy_ostr (error st) then ErrorView (template (error st)) else
  match project st with
  | None => NotFoundView
  | Some p => ProjectView p (permissionsOf ctx st)
  end.

(** The three page states of the specification. *)
Inductive PageKind := Loading | FatalError | Loaded.

Definition kindOf (v : View) : PageKind :=
  match v with
  | SpinnerView => Loading
  | ErrorView _ | NotFoundView => FatalError
  | ProjectView _ _ => Loaded
  end.

(* ================================================================== *)
(** ** The realtime subscription effect (lines 98-130)

    The effect and its cleanup are the source's; [step] is React's rule
    for [useEffect]: after a render whose dependencies differ from those
    of the last run (or the first render) the pending cleanup runs, then
    the effect body, both with the variables of the render that created
    them; on unmount the pending cleanup runs. The dependency array is
    [projectId, canChat, addNotification]; the notification callback is
    taken to keep its identity between renders. *)

Module ChatSubscription.

(** What reaches the [supabase] client. *)
Inductive Action :=
| Subscribe (ch : Channel.t)
| RemoveChannel (ch : Channel.t).

Record World := {
  chatChannelState : option Channel.t;
    (* the [useState] cell [chatChannel] *)
  lastDeps : option (option jsstring * bool);
    (* [projectId, canChat] of the last run of the effect *)
  pendingCleanup : option (option Channel.t);
    (* the [chatChannel] the pending cleanup closed over *)
  live : list Channel.t;
    (* channels subscribed and not yet removed *)
  created : nat;
    (* channels the client made so far *)
  actions : list Action
}.

Definition mount : World :=
  {| chatChannelState := None; lastDeps := None; pendingCleanup := None;
     live := []; created := 0; actions := [] |}.

(** The body of the effect, lines 99-123, run with the [projectId],
    [canChat] and [chatChannel] of its render. *)
Definition effectBody (projectId : option jsstring) (canChat : bool)
    (chatChannel : option Channel.t) (w : World) : World :=
  match projectId with
  | Some pid =>
    if canChat && truthy_str pid && negb (truthy chatChannel) then
      let newChannel :=
        {| Channel.topic := js "project-chat-" ++ pid;
           Channel.uid := created w |} in
      {| chatChannelState := Some newChannel;
         lastDeps := lastDeps w;
         pendingCleanup := pendingCleanup w;
         live := live w ++ [newChannel];
         created := S (created w);
         actions := actions w ++ [Subscribe newChannel] |}
    else w
  | None => w
  end.

(** The cleanup, lines 124-128, run with the [chatChannel] of the
    render that created it. *)
Definition effectCleanup (chatChannel : option Channel.t) (w : World)
    : World :=
  match chatChannel with
  | Some ch =>
    {| chatChannelState := chatChannelState w;
       lastDeps := lastDeps w;
       pendingCleanup := pendingCleanup w;
       live := filter (fun c => negb (Channel.same c ch)) (live w);
       created := created w;
       actions := actions w ++ [RemoveChannel ch] |}
  | None => w
  end.

Definition runPendingCleanup (w : World) : World :=
  match pendingCleanup w with
  | Some captured => effectCleanup captured w
  | None => w
  end.

Definition sameOptString (a b : option jsstring) : bool :=
  match a, b with
  | Some x, Some y => strict_eq x y
  | None, None => true
  | _, _ => false
  end.

Definition sameDeps (a b : option jsstring * bool) : bool :=
  sameOptString (fst a) (fst b) && Bool.eqb (snd a) (snd b).

Inductive Step :=
| Render (projectId : option jsstring) (canChat : bool)
| Unmount.

Definition step (w : World) (s : Step) : World :=
  match s with
  | Render projectId canChat =>
    if match lastDeps w with
       | Some d => sameDeps d (projectId, canChat)
       | None => false
       end
    then w
    else
      let captured := chatChannelState w in
      let w1 := runPendingCleanup w in
      let w2 := effectBody projectId canChat captured w1 in
      {| chatChannelState := chatChannelState w2;
         lastDeps := Some (projectId, canChat);
         pendingCleanup := Some captured;
         live := live w2; created := created w2; actions := actions w2 |}
  | Unmount =>
    let w1 := runPendingCleanup w in
    {| chatChannelState := None; lastDeps := None; pendingCleanup := None;
       live := live w1; created := created w1; actions := actions w1 |}
  end.

Definition steps (l : list Step) : World := fold_left step l mount.

Definition isRemove (a : Action) : bool :=
  match a with RemoveChannel _ => true | Subscribe _ => false end.

Definition isSubscribe (a : Action) : bool :=
  match a with Subscribe _ => true | RemoveChannel _ => false end.

(** How many times a channel was released. *)
Definition releases (w : World) : nat :=
  List.length (filter isRemove (actions w)).

(** How many times a channel was opened. *)
Definition subscriptions (w : World) : nat :=
  List.length (filter isSubscribe (actions w)).

(** The invariant of the presence check: at most one channel was
    opened, and none while the state cell is still empty. *)
Definition guarded (w : World) : Prop :=
  subscriptions w <= 1 /\ (chatChannelState w = None -> subscriptions w = 0).

Definition isRender (s : Step) : bool :=
  match s with Render _ _ => true | Unmount => false end.

(** The live channels of one project. *)
Definition liveFor (pid : jsstring) (w : World) : list Channel.t :=
  filter (fun c => strict_eq (Channel.topic c) (js "project-chat-" ++ pid))
         (live w).

End ChatSubscription.

(* ================================================================== *)
(** ** What the loaded page shows (lines 189-266) *)

(** The [posted_by_user] object of a project, as far as the header reads
    it; an [is_anonymous] that is missing counts as false. *)
Module PostedByUser.
Record t := {
  name : option jsstring;
  institution : option jsstring;
  is_anonymous : bool
}.
End PostedByUser.

(** The test shared by lines 189 and 190:
    [posted_by_user?.is_anonymous && !isOwner && !isAcceptedContributor]. *)
Definition hidesIdentity (posted_by_user : option PostedByUser.t)
    (perms : Permissions) : bool :=
  match posted_by_user with
  | Some o => PostedByUser.is_anonymous o
  | None => false
  end
  && negb (isOwner perms) && negb (isAcceptedContributor perms).

(** [displayUserName], line 189. *)
Definition displayUserName (posted_by_user : option PostedByUser.t)
    (perms : Permissions) : option jsstring :=
  if hidesIdentity posted_by_user perms
  then Some (js "Anonymous Researcher")
  else match posted_by_user with
       | Some o => PostedByUser.name o
       | None => None
       end.

(** [displayUserInstitution], line 190. *)
Definition displayUserInstitution (posted_by_user : option PostedByUser.t)
    (perms : Permissions) : jsstring :=
  if hidesIdentity posted_by_user perms
  then []
  else js "("
         ++ or_str match posted_by_user with
                   | Some o => PostedByUser.institution o
                   | None => None
                   end
                   (js "Unknown")
         ++ js ")".

(** The conditional blocks of the loaded page. *)
Record Controls := {
  showApplicationForm : bool;   (* line 211 *)
  showApplyButton : bool;       (* line 214 *)
  showAppliedBanner : bool;     (* line 215 *)
  showEditLink : bool;          (* line 216 *)
  showChat : bool;              (* line 226 *)
  showApplications : bool;      (* line 236 *)
  sendDisabled : bool           (* line 233, the Send button *)
}.

Definition controls (ctx : Context) (st : PageState) (p : Project.t)
    : Controls :=
  let perms := permissionsOf ctx st in
  {| showApplicationForm := isApplying st && canApply perms;
     showApplyButton := canApply perms && negb (isApplying st);
     showAppliedBanner := hasApplied perms && negb (isOwner perms);
     showEditLink := canManage perms && truthy_str (Project.id p);
     showChat := canChat perms;
     showApplications := isOwner perms && truthy_str (Project.id p);
     sendDisabled :=
       (negb (truthy_str (trim (newMessage st)))
        && negb (truthy (attachment st)))
       || isSendingMessage st |}.

(** The statuses the buttons of one application card pass to
    [handleApplicationStatusUpdate] (lines 256-260): Accept, Shortlist,
    Reject, in that order. *)
Definition offeredStatuses (app : Application.t) : list ApplicationStatus.t :=
  if ApplicationStatus.eqb (Application.status app) ApplicationStatus.PENDING
     || ApplicationStatus.eqb (Application.status app)
          ApplicationStatus.SHORTLISTED
  then
    [ApplicationStatus.ACCEPTED]
    ++ (if ApplicationStatus.eqb (Application.status app)
             ApplicationStatus.PENDING
        then [ApplicationStatus.SHORTLISTED] else [])
    ++ [ApplicationStatus.REJECTED]
  else [].

(* ================================================================== *)
(** ** The modal dialog ([Modal.tsx])

    The component holds one state cell, [showContent], and one effect
    with the dependency [isOpen]: an open modal arms a timer of 10 ms
    that sets [showContent], and its cleanup clears that timer; a closed
    modal resets [showContent]. [step] runs the effect by React's rule
    and lets a pending timer fire. *)

Module Modal.

Inductive Size := sm | md | lg | xl.

(** The table [sizeClasses]. *)
Definition sizeClasses (s : Size) : jsstring :=
  match s with
  | sm => js "max-w-sm"
  | md => js "max-w-md"
  | lg => js "max-w-lg"
  | xl => js "max-w-xl"
  end.

Record Props := {
  isOpen : bool;
  title : option jsstring;
  footer : bool;          (* whether a footer node was passed *)
  size : option Size      (* defaults to [md] *)
}.

(** What the component returns when it returns a dialog. *)
Record Dialog := {
  widthClass : jsstring;
  scaledIn : bool;        (* [scale-100 opacity-100] or [scale-95 opacity-0] *)
  hasTitle : bool;
  hasFooter : bool
}.

Definition render (props : Props) (showContent : bool) : option Dialog :=
  if negb (isOpen props) then None else
  Some {| widthClass :=
            sizeClasses match size props with Some s => s | None => md end;
          scaledIn := showContent;
          hasTitle := truthy_ostr (title props);
          hasFooter := footer props |}.

Record World := {
  showContent : bool;
    (* the [useState] cell *)
  lastDeps : option bool;
    (* [isOpen] of the last run of the effect *)
  pendingCleanup : option nat;
    (* the timer the pending cleanup clears, if the effect returned one *)
  timers : list nat;
    (* timers armed and neither fired nor cleared *)
  created : nat
    (* timers made so far *)
}.

Definition mount : World :=
  {| showContent := false; lastDeps := None; pendingCleanup := None;
     timers := []; created := 0 |}.

(** [clearTimeout(timer)] *)
Definition clearTimeout (timer : nat) (w : World) : World :=
  {| showContent := showContent w; lastDeps := lastDeps w;
     pendingCleanup := pendingCleanup w;
     timers := filter (fun t => negb (Nat.eqb t timer)) (timers w);
     created := created w |}.

Definition runPendingCleanup (w : World) : World :=
  match pendingCleanup w with
  | Some timer => clearTimeout timer w
  | None => w
  end.

(** The body of the effect; the second component is the timer its
    cleanup will clear. *)
Definition effectBody (isOpen : bool) (w : World) : World * option nat :=
  if isOpen then
    let timer := created w in
    ({| showContent := showContent w; lastDeps := lastDeps w;
        pendingCleanup := pendingCleanup w;
        timers := timers w ++ [timer]; created := S (created w) |},
     Some timer)
  else
    ({| showContent := false; lastDeps := lastDeps w;
        pendingCleanup := pendingCleanup w;
        timers := timers w; created := created w |},
     None).

Inductive Step :=
| Render (isOpen : bool)
| Timeout (timer : nat)
| Unmount.

Definition step (w : World) (s : Step) : World :=
  match s with
  | Render isOpen =>
    if match lastDeps w with
       | Some d => Bool.eqb d isOpen
       | None => false
       end
    then w
    else
      let w1 := runPendingCleanup w in
      let '(w2, cleanup) := effectBody isOpen w1 in
      {| showContent := showContent w2; lastDeps := Some isOpen;
         pendingCleanup := cleanup;
         timers := timers w2; created := created w2 |}
  | Timeout timer =>
    if existsb (Nat.eqb timer) (timers w) then
      {| showContent := true; lastDeps := lastDeps w;
         pendingCleanup := pendingCleanup w;
         timers := filter (fun t => negb (Nat.eqb t timer)) (timers w);
         created := created w |}
    else w
  | Unmount =>
    let w1 := runPendingCleanup w in
    {| showContent := false; lastDeps := None; pendingCleanup := None;
       timers := timers w1; created := created w1 |}
  end.

Definition steps (l : list Step) : World := fold_left step l mount.

(** What the effect keeps true of every reachable state. *)
Definition quiet (w : World) : Prop :=
  (forall t, In t (timers w) -> pendingCleanup w = Some t)
  /\ (forall t, pendingCleanup w = Some t ->
        lastDeps w = Some true /\ t < created w)
  /\ (showContent w = true -> lastDeps w = Some true)
  /\ List.length (timers w) <= 1.

End Modal.

(* ================================================================== *)
(** ** Failed calls, as the handlers tell them apart *)

(** An upload failed: the promise rejected, an error came back, or no
    public URL did (line 139). *)
Definition uploadFailed (o : Outcome UploadReply) : bool :=
  match o with
  | Resolved up => truthy (upload_error up) || negb (truthy_ostr (publicUrl up))
  | Rejected _ => true
  end.

(** A data-access call failed: the promise rejected or an error came
    back ([if (error) throw error]). *)
Definition callFailed (A : Type) (o : Outcome (Reply A)) : bool :=
  match o with
  | Resolved r => truthy (reply_error r)
  | Rejected _ => true
  end.

(* ================================================================== *)
(** ** Reading a trace *)

Definition isNotification (e : Event) : bool :=
  match e with AddNotification _ _ _ => true | _ => false end.

(** The notifications a run posted. *)
Definition notifications (tr : list Event) : list Event :=
  filter isNotification tr.

(** The backend calls a run made. *)
Definition backendCalls (tr : list Event) : list Event :=
  filter isBackendCall tr.

(** How many messages of a list carry an identifier. *)
Definition occurrences (mid : jsstring) (l : list Message.t) : nat :=
  List.length (filter (fun m => strict_eq (Message.id m) mid) l).

(* ================================================================== *)
(** ** A send that reaches [sendMessage] *)

(** The compose state [snap] gets past the guard and the upload step of
    [handleSendMessage] with the attachment URL [url]: either there is no
    attachment, the trimmed text is not empty and [url] is undefined, or
    the attachment uploads without error to the non-empty [url]. *)
Definition reachesSend (backend : Backend) (snap : PageState)
    (url : option jsstring) : Prop :=
  match attachment snap with
  | Some f =>
    exists up,
      uploadFile backend f (js "project-chat-attachments") = Resolved up
      /\ upload_error up = None /\ publicUrl up = url
      /\ truthy_ostr url = true
  | None => url = None /\ trim (newMessage snap) <> []
  end.

(** The upload call such a send makes first, if any. *)
Definition uploadTrace (snap : PageState) : list Event :=
  match attachment snap with
  | Some f => [UploadFile f (js "project-chat-attachments")]
  | None => []
  end.

(* ================================================================== *)
(** ** Channels the effect knows *)

(** The effect opened the channel at some point. *)
Definition opened (w : ChatSubscription.World) (ch : Channel.t) : Prop :=
  In (ChatSubscription.Subscribe ch) (ChatSubscription.actions w).

(** Every channel the component holds, released or left live was opened
    by the effect, for a project identifier that is not empty. *)
Definition tracked (w : ChatSubscription.World) : Prop :=
  (forall ch, In (ChatSubscription.RemoveChannel ch)
                 (ChatSubscription.actions w) -> opened w ch)
  /\ (forall ch, In ch (ChatSubscription.live w) -> opened w ch)
  /\ (forall ch, ChatSubscription.chatChannelState w = Some ch -> opened w ch)
  /\ (forall ch, ChatSubscription.pendingCleanup w = Some (Some ch) ->
        opened w ch)
  /\ (forall ch, opened w ch ->
        exists pid, pid <> []
                    /\ Channel.topic ch = js "project-chat-" ++ pid).

(* ================================================================== *)
(** ** Sample data: a project with its owner, an applicant and a chat *)

Module Sample.

Definition lead : User.t :=
  {| User.id := js "u-lead"; User.role := UserRole.OTHER |}.

Definition applicant : User.t :=
  {| User.id := js "u-ann"; User.role := UserRole.CONTRIBUTOR |}.

Definition application1 : Application.t :=
  {| Application.id := js "a1";
     Application.contributor_user_id := js "u-ann";
     Application.status := ApplicationStatus.PENDING;
     Application.proposal_text := js "I can help with the survey." |}.

Definition application2 : Application.t :=
  {| Application.id := js "a2";
     Application.contributor_user_id := js "u-bob";
     Application.status := ApplicationStatus.SHORTLISTED;
     Application.proposal_text := js "Statistics background." |}.

Definition milestone1 : Milestone.t :=
  {| Milestone.id := js "m1"; Milestone.description := js "Draft";
     Milestone.amount := 100; Milestone.status := MilestoneStatus.OTHER |}.

Definition milestone2 : Milestone.t :=
  {| Milestone.id := js "m2"; Milestone.description := js "Report";
     Milestone.amount := 250; Milestone.status := MilestoneStatus.OTHER |}.

Definition project1 : Project.t :=
  {| Project.id := js "p1"; Project.title := js "Field survey";
     Project.posted_by_user_id := js "u-lead";
     Project.status := ProjectStatus.OPEN;
     Project.milestones := Some [milestone1; milestone2];
     Project.applications := Some [application1; application2] |}.

Definition annProfile : Sender.t :=
  {| Sender.id := js "u-ann"; Sender.name := js "Ann";
     Sender.profile_photo_url := None |}.

Definition message1 : Message.t :=
  {| Message.id := js "msg1"; Message.project_id := js "p1";
     Message.sender_user_id := js "u-lead";
     Message.message_text := js "Welcome";
     Message.attachment_url := None;
     Message.created_at := js "2024-05-01T10:00:00Z";
     Message.sender_user := None |}.

Definition message2 : Message.t :=
  {| Message.id := js "msg2"; Message.project_id := js "p1";
     Message.sender_user_id := js "u-ann";
     Message.message_text := js "Thanks";
     Message.attachment_url := None;
     Message.created_at := js "2024-05-01T10:05:00Z";
     Message.sender_user := None |}.

Definition notes : File :=
  {| file_name := js "notes.pdf"; file_size := 2048 |}.

(** The page of the owner once [project1] is loaded. *)
Definition ownerCtx : Context :=
  {| projectId := Some (js "p1"); user := Some lead |}.

Definition loaded : PageState :=
  {| project := Some project1;
     applications := [application1; application2];
     messages := [message1]; newMessage := js "  ";
     attachment := None; isLoading := false; error := None;
     isApplying := false; isSendingMessage := false;
     chatChannel := None |}.

Definition composing : PageState := updAttachment (Some notes) loaded.

Definition serverError : ErrorObj :=
  {| message := Some (js "permission denied") |}.

(** A backend on which every call succeeds. *)
Definition okBackend : Backend :=
  {| getProjectById := fun _ =>
       Resolved {| data := Some project1; reply_error := None |};
     selectMessages := fun _ =>
       Resolved {| data := Some [message1]; reply_error := None |};
     selectSender := fun _ =>
       Resolved {| data := Some annProfile; reply_error := None |};
     uploadFile := fun _ _ =>
       Resolved {| publicUrl := Some (js "https://cdn/notes.pdf");
                   upload_error := None |};
     sendMessage := fun _ _ _ =>
       Resolved {| data := Some message2; reply_error := None |};
     updateApplicationStatus := fun _ _ =>
       Resolved {| data := None; reply_error := None |};
     updateMilestoneStatus := fun _ _ _ =>
       Resolved {| data := None; reply_error := None |} |}.

(** A backend on which every call answers with an error. *)
Definition failingBackend : Backend :=
  {| getProjectById := fun _ =>
       Resolved {| data := None; reply_error := Some serverError |};
     selectMessages := fun _ =>
       Resolved {| data := None; reply_error := Some serverError |};
     selectSender := fun _ =>
       Resolved {| data := None; reply_error := Some serverError |};
     uploadFile := fun _ _ =>
       Resolved {| publicUrl := None; upload_error := Some serverError |};
     sendMessage := fun _ _ _ =>
       Resolved {| data := None; reply_error := Some serverError |};
     updateApplicationStatus := fun _ _ =>
       Resolved {| data := None; reply_error := Some serverError |};
     updateMilestoneStatus := fun _ _ _ =>
       Resolved {| data := None; reply_error := Some serverError |} |}.

End Sample.

(* ================================================================== *)
(** ** Basic facts on the JavaScript values *)

Unset Implicit Arguments.

Lemma strict_eq_iff (a b : jsstring) : strict_eq a b = true <-> a = b.
Proof.
  revert b; induction a as [|x a IH]; intros [|y b]; simpl;
    try (split; [discriminate | congruence]); try tauto.
  rewrite andb_true_iff, N.eqb_eq, IH.
  split; [intros [-> ->]; reflexivity | intros H; injection H; auto].
Qed.

Lemma strict_eq_refl (a : jsstring) : strict_eq a a = true.
Proof. apply strict_eq_iff; reflexivity. Qed.

Lemma strict_eq_false_iff (a b : jsstring) : strict_eq a b = false <-> a <> b.
Proof.
  rewrite <- strict_eq_iff. destruct (strict_eq a b); split; congruence.
Qed.

Lemma UserRole_eqb_iff (a b : UserRole.t) : UserRole.eqb a b = true <-> a = b.
Proof. destruct a, b; simpl; split; congruence. Qed.

Lemma ProjectStatus_eqb_iff (a b : ProjectStatus.t) :
  ProjectStatus.eqb a b = true <-> a = b.
Proof. destruct a, b; simpl; split; congruence. Qed.

Lemma ApplicationStatus_eqb_iff (a b : ApplicationStatus.t) :
  ApplicationStatus.eqb a b = true <-> a = b.
Proof. destruct a, b; simpl; split; congruence. Qed.

(** [find] returns nothing exactly when no element passes the test. *)
Lemma find_none_iff (A : Type) (f : A -> bool) (l : list A) :
  find f l = None <-> forall x, In x l -> f x = false.
Proof.
  split; [apply find_none|].
  induction l as [|a l IH]; simpl; intros H; [reflexivity|].
  rewrite (H a (or_introl eq_refl)). apply IH. intros x Hx. apply H. now right.
Qed.

Lemma truthy_false_iff (A : Type) (x : option A) :
  truthy x = false <-> x = None.
Proof. destruct x; simpl; split; congruence. Qed.

(* ================================================================== *)
(** ** Permission derivation: theorems *)

(** C1. With a signed-in user and a loaded project, [canApply] holds
    exactly when the user's role is contributor, the user is not the
    project's owner, no application of the list is by the user, and the
    project is OPEN. *)
Theorem canApply_iff (u : User.t) (p : Project.t) (apps : list Application.t) :
  canApply (derivePermissions (Some u) (Some p) apps) = true <->
  User.role u = UserRole.CONTRIBUTOR
  /\ User.id u <> Project.posted_by_user_id p
  /\ (forall a, In a apps -> Application.contributor_user_id a <> User.id u)
  /\ Project.status p = ProjectStatus.OPEN.
Proof.
  simpl. rewrite !andb_true_iff, !negb_true_iff.
  rewrite UserRole_eqb_iff, ProjectStatus_eqb_iff, strict_eq_false_iff.
  rewrite truthy_false_iff, find_none_iff.
  split.
  - intros [[[Hr Ho] Ha] Hs]. repeat split; auto.
    intros a Hin. apply strict_eq_false_iff. now apply Ha.
  - intros (Hr & Ho & Ha & Hs). repeat split; auto.
    intros a Hin. apply strict_eq_false_iff. now apply Ha.
Qed.

(** C10. While the project is not loaded or nobody is signed in, every
    derived permission is false and [viewerApplicationStatus] is
    undefined. *)
Theorem permissions_null_guard (user : option User.t)
    (project : option Project.t) (apps : list Application.t) :
  project = None \/ user = None ->
  let perms := derivePermissions user project apps in
  isOwner perms = false /\ isAcceptedContributor perms = false
  /\ hasApplied perms = false /\ canApply perms = false
  /\ canChat perms = false /\ canManage perms = false
  /\ viewerApplicationStatus perms = None.
Proof.
  intros [-> | ->]; [|destruct project]; simpl; repeat split.
Qed.

Lemma permissions_null_guard_witness :
  let perms :=
    derivePermissions None
      (Some {| Project.id := js "p1"; Project.title := js "Survey";
               Project.posted_by_user_id := js "u1";
               Project.status := ProjectStatus.OPEN;
               Project.milestones := None; Project.applications := None |})
      [] in
  isOwner perms = false /\ isAcceptedContributor perms = false
  /\ hasApplied perms = false /\ canApply perms = false
  /\ canChat perms = false /\ canManage perms = false
  /\ viewerApplicationStatus perms = None.
Proof.
  apply (@permissions_null_guard None
    (Some {| Project.id := js "p1"; Project.title := js "Survey";
             Project.posted_by_user_id := js "u1";
             Project.status := ProjectStatus.OPEN;
             Project.milestones := None; Project.applications := None |})
    []).
  right; reflexivity.
Defined.

(* ================================================================== *)
(** ** Chat message ingestion *)

Lemma existsb_id_true_iff (mid : jsstring) (l : list Message.t) :
  existsb (fun m => strict_eq (Message.id m) mid) l = true <->
  exists m, In m l /\ Message.id m = mid.
Proof.
  rewrite existsb_exists. split; intros [m [Hin H]]; exists m; split; auto;
    now apply strict_eq_iff.
Qed.

Lemma existsb_id_false_iff (mid : jsstring) (l : list Message.t) :
  existsb (fun m => strict_eq (Message.id m) mid) l = false <->
  forall m, In m l -> Message.id m <> mid.
Proof.
  split.
  - intros H m Hin Heq.
    assert (Ht : existsb (fun m => strict_eq (Message.id m) mid) l = true)
      by (apply existsb_id_true_iff; eauto).
    congruence.
  - intros H. destruct (existsb _ l) eqn:E; [|reflexivity].
    apply existsb_id_true_iff in E. destruct E as [m [Hin Heq]].
    exfalso. exact (H m Hin Heq).
Qed.

Lemma mergeMessage_present (m : Message.t) (prev : list Message.t) :
  (exists x, In x prev /\ Message.id x = Message.id m) ->
  mergeMessage m prev = prev.
Proof.
  intros H. unfold mergeMessage.
  now rewrite (proj2 (existsb_id_true_iff (Message.id m) prev) H).
Qed.

Lemma mergeMessage_absent (m : Message.t) (prev : list Message.t) :
  (forall x, In x prev -> Message.id x <> Message.id m) ->
  mergeMessage m prev = prev ++ [m].
Proof.
  intros H. unfold mergeMessage.
  now rewrite (proj2 (existsb_id_false_iff (Message.id m) prev) H).
Qed.


(** What one realtime event does once the sender's profile has been
    fetched: only the message list changes, by [mergeMessage]. *)
Lemma onInsert_resolved (backend : Backend) (payload_new : Message.t)
    (senderData : Reply Sender.t) (s : Store) :
  selectSender backend (Message.sender_user_id payload_new)
    = Resolved senderData ->
  onInsert backend payload_new s =
  (Normal tt,
   {| page :=
        updMessages
          (mergeMessage
             (Message.with_sender_user payload_new (data senderData)))
          (page s);
      trace := trace s ++ [SelectSender (Message.sender_user_id payload_new)]
   |}).
Proof.
  intros H. unfold onInsert, bind, await, modify. rewrite H. reflexivity.
Qed.



(* ================================================================== *)
(** ** Message sending *)

(** C5. With an empty trimmed text and no attachment, send returns at
    its guard: the live state is untouched and the trace is empty, so
    neither an upload nor a [sendMessage] call was made. *)
Theorem send_rejects_empty (backend : Backend) (ctx : Context)
    (snap st : PageState) :
  trim (newMessage snap) = [] ->
  attachment snap = None ->
  run (handleSendMessage backend ctx snap) st
  = (Normal tt, {| page := st; trace := [] |}).
Proof.
  intros Ht Ha. unfold run, handleSendMessage.
  destruct (projectId ctx) as [pid|]; [|reflexivity].
  rewrite Ht, Ha. simpl.
  destruct (truthy_str pid); reflexivity.
Qed.

Lemma send_rejects_empty_witness :
  run (handleSendMessage Sample.okBackend Sample.ownerCtx Sample.loaded)
      Sample.loaded
  = (Normal tt, {| page := Sample.loaded; trace := [] |}).
Proof.
  apply (@send_rejects_empty Sample.okBackend Sample.ownerCtx Sample.loaded
           Sample.loaded); reflexivity.
Defined.

(** The whole run of a send whose upload fails. *)
Lemma handleSendMessage_upload_failure (backend : Backend) (ctx : Context)
    (snap st : PageState) (pid : jsstring) (u : User.t) (f : File) :
  projectId ctx = Some pid -> pid <> [] -> user ctx = Some u ->
  attachment snap = Some f ->
  uploadFailed (uploadFile backend f (js "project-chat-attachments")) = true ->
  exists msg,
    run (handleSendMessage backend ctx snap) st
    = (Normal tt,
       {| page := updIsSendingMessage false (updIsSendingMessage true st);
          trace := [UploadFile f (js "project-chat-attachments");
                    AddNotification msg NotificationType.ERROR None] |}).
Proof.
  intros Hp Hne Hu Ha Hf. unfold run, handleSendMessage.
  rewrite Hp, Hu, Ha.
  destruct pid as [|c pid]; [congruence|]. simpl.
  rewrite andb_false_r. simpl.
  unfold bind, tryFinally, tryCatch, await, modify, addNotification, emit.
  simpl.
  destruct (uploadFile backend f (js "project-chat-attachments"))
    as [up|e]; simpl in *.
  - rewrite Hf. simpl. eexists. reflexivity.
  - eexists. reflexivity.
Qed.

(** C6. When a send has an attachment and its upload fails, the send is
    aborted: the trace holds no [sendMessage] call, the local message list
    is unchanged, and an error notification was posted. *)
Theorem send_aborts_on_upload_failure (backend : Backend) (ctx : Context)
    (snap st : PageState) (pid : jsstring) (u : User.t) (f : File) :
  projectId ctx = Some pid -> pid <> [] -> user ctx = Some u ->
  attachment snap = Some f ->
  uploadFailed (uploadFile backend f (js "project-chat-attachments")) = true ->
  let after := snd (run (handleSendMessage backend ctx snap) st) in
  existsb isSendMessage (trace after) = false
  /\ messages (page after) = messages st
  /\ existsb isErrorNotification (trace after) = true
  /\ newMessage (page after) = newMessage st
  /\ attachment (page after) = attachment st.
Proof.
  intros Hp Hne Hu Ha Hf after.
  destruct (@handleSendMessage_upload_failure backend ctx snap st pid u f
              Hp Hne Hu Ha Hf)
    as [msg Hrun].
  unfold after. rewrite Hrun. simpl. repeat split.
Qed.

Lemma send_aborts_on_upload_failure_witness :
  let after :=
    snd (run (handleSendMessage Sample.failingBackend Sample.ownerCtx
                Sample.composing) Sample.composing) in
  existsb isSendMessage (trace after) = false
  /\ messages (page after) = messages Sample.composing
  /\ existsb isErrorNotification (trace after) = true
  /\ newMessage (page after) = newMessage Sample.composing
  /\ attachment (page after) = attachment Sample.composing.
Proof.
  apply (@send_aborts_on_upload_failure Sample.failingBackend Sample.ownerCtx
           Sample.composing Sample.composing (js "p1") Sample.lead
           Sample.notes);
    try reflexivity.
  discriminate.
Defined.

(* ================================================================== *)
(** ** Application status update *)

Lemma patchApplications_length (applicationId : jsstring)
    (newStatus : ApplicationStatus.t) (prev : list Application.t) :
  List.length (patchApplications applicationId newStatus prev)
  = List.length prev.
Proof. unfold patchApplications. apply length_map. Qed.

Lemma patchApplications_nth (applicationId : jsstring)
    (newStatus : ApplicationStatus.t) (prev : list Application.t)
    (i : nat) (a : Application.t) :
  nth_error prev i = Some a ->
  (Application.id a = applicationId ->
     nth_error (patchApplications applicationId newStatus prev) i
     = Some (Application.with_status a newStatus))
  /\ (Application.id a <> applicationId ->
     nth_error (patchApplications applicationId newStatus prev) i = Some a).
Proof.
  intros H. unfold patchApplications. rewrite nth_error_map, H. simpl.
  split; intros Hid.
  - now rewrite (proj2 (strict_eq_iff _ _) Hid).
  - now rewrite (proj2 (strict_eq_false_iff _ _) Hid).
Qed.

(** The whole run of a status update the backend accepts. *)
Lemma handleApplicationStatusUpdate_success (backend : Backend)
    (ctx : Context) (snap st : PageState) (applicationId : jsstring)
    (newStatus : ApplicationStatus.t) (r : Reply Application.t) :
  isOwner (permissionsOf ctx snap) = true ->
  project snap <> None ->
  updateApplicationStatus backend applicationId newStatus = Resolved r ->
  reply_error r = None ->
  run (handleApplicationStatusUpdate backend ctx snap applicationId newStatus)
      st
  = (Normal tt,
     {| page :=
          (if ApplicationStatus.eqb newStatus ApplicationStatus.ACCEPTED
           then updProject markInProgress
           else fun x => x)
            (updApplications (patchApplications applicationId newStatus) st);
        trace :=
          [UpdateApplicationStatus applicationId newStatus;
           AddNotification
             (js "Application status updated to "
                ++ ApplicationStatus.text newStatus ++ js ".")
             NotificationType.SUCCESS None] |}).
Proof.
  intros Hown Hproj Hans Herr.
  unfold run, handleApplicationStatusUpdate. rewrite Hown.
  destruct (project snap); [|congruence]. simpl.
  unfold bind, tryCatch, await. rewrite Hans, Herr. simpl.
  destruct (ApplicationStatus.eqb newStatus ApplicationStatus.ACCEPTED);
    reflexivity.
Qed.

(** C3. When the owner's status update succeeds, the local list keeps
    its length; every application with the given id now has the new
    status, with its id, contributor and proposal as before; every other
    application is untouched; and when the new status is ACCEPTED the
    local project now has the status IN_PROGRESS, with its other fields
    as before. *)
Theorem application_status_update_success (backend : Backend)
    (ctx : Context) (snap st : PageState) (applicationId : jsstring)
    (newStatus : ApplicationStatus.t) (r : Reply Application.t) :
  isOwner (permissionsOf ctx snap) = true ->
  project snap <> None ->
  updateApplicationStatus backend applicationId newStatus = Resolved r ->
  reply_error r = None ->
  let after :=
    page (snd (run (handleApplicationStatusUpdate backend ctx snap
                      applicationId newStatus) st)) in
  List.length (applications after) = List.length (applications st)
  /\ (forall i a, nth_error (applications st) i = Some a ->
        (Application.id a = applicationId ->
           exists a',
             nth_error (applications after) i = Some a'
             /\ Application.status a' = newStatus
             /\ Application.id a' = Application.id a
             /\ Application.contributor_user_id a'
                = Application.contributor_user_id a
             /\ Application.proposal_text a' = Application.proposal_text a)
        /\ (Application.id a <> applicationId ->
           nth_error (applications after) i = Some a))
  /\ (newStatus = ApplicationStatus.ACCEPTED ->
        forall p, project st = Some p ->
          exists p',
            project after = Some p'
            /\ Project.status p' = ProjectStatus.IN_PROGRESS
            /\ Project.id p' = Project.id p
            /\ Project.title p' = Project.title p
            /\ Project.posted_by_user_id p' = Project.posted_by_user_id p
            /\ Project.milestones p' = Project.milestones p
            /\ Project.applications p' = Project.applications p)
  /\ (newStatus <> ApplicationStatus.ACCEPTED -> project after = project st).
Proof.
  intros Hown Hproj Hans Herr after.
  unfold after.
  rewrite (handleApplicationStatusUpdate_success backend ctx snap st
             applicationId newStatus r Hown Hproj Hans Herr).
  simpl.
  assert (Happs :
    applications
      ((if ApplicationStatus.eqb newStatus ApplicationStatus.ACCEPTED
        then updProject markInProgress else fun x => x)
         (updApplications (patchApplications applicationId newStatus) st))
    = patchApplications applicationId newStatus (applications st))
    by (destruct (ApplicationStatus.eqb _ _); reflexivity).
  rewrite Happs.
  split; [apply patchApplications_length|].
  split.
  { intros i a Hi.
    destruct (patchApplications_nth applicationId newStatus
                (applications st) i a Hi) as [Hsame Hother].
    split; [|exact Hother].
    intros Hid. exists (Application.with_status a newStatus).
    split; [now apply Hsame|]. simpl. repeat split. }
  split.
  - intros -> p Hp. simpl. rewrite Hp. simpl.
    exists (Project.with_status p ProjectStatus.IN_PROGRESS).
    simpl. repeat split.
  - intros Hne.
    destruct (ApplicationStatus.eqb newStatus ApplicationStatus.ACCEPTED)
      eqn:E; [|reflexivity].
    apply ApplicationStatus_eqb_iff in E. contradiction.
Qed.

Lemma application_status_update_success_witness :
  let after :=
    page (snd (run (handleApplicationStatusUpdate Sample.okBackend
                      Sample.ownerCtx Sample.loaded (js "a1")
                      ApplicationStatus.ACCEPTED) Sample.loaded)) in
  List.length (applications after) = List.length (applications Sample.loaded)
  /\ (forall i a, nth_error (applications Sample.loaded) i = Some a ->
        (Application.id a = js "a1" ->
           exists a',
             nth_error (applications after) i = Some a'
             /\ Application.status a' = ApplicationStatus.ACCEPTED
             /\ Application.id a' = Application.id a
             /\ Application.contributor_user_id a'
                = Application.contributor_user_id a
             /\ Application.proposal_text a' = Application.proposal_text a)
        /\ (Application.id a <> js "a1" ->
           nth_error (applications after) i = Some a))
  /\ (ApplicationStatus.ACCEPTED = ApplicationStatus.ACCEPTED ->
        forall p, project Sample.loaded = Some p ->
          exists p',
            project after = Some p'
            /\ Project.status p' = ProjectStatus.IN_PROGRESS
            /\ Project.id p' = Project.id p
            /\ Project.title p' = Project.title p
            /\ Project.posted_by_user_id p' = Project.posted_by_user_id p
            /\ Project.milestones p' = Project.milestones p
            /\ Project.applications p' = Project.applications p)
  /\ (ApplicationStatus.ACCEPTED <> ApplicationStatus.ACCEPTED ->
        project after = project Sample.loaded).
Proof.
  apply (@application_status_update_success Sample.okBackend Sample.ownerCtx
           Sample.loaded Sample.loaded (js "a1") ApplicationStatus.ACCEPTED
           {| data := None; reply_error := None |});
    try reflexivity.
  discriminate.
Defined.

(** The whole run of a status update the backend refuses. *)
Lemma handleApplicationStatusUpdate_failure (backend : Backend)
    (ctx : Context) (snap st : PageState) (applicationId : jsstring)
    (newStatus : ApplicationStatus.t) :
  isOwner (permissionsOf ctx snap) = true ->
  project snap <> None ->
  callFailed (updateApplicationStatus backend applicationId newStatus)
    = true ->
  exists err,
    run (handleApplicationStatusUpdate backend ctx snap applicationId
           newStatus) st
    = (Normal tt,
       {| page := st;
          trace :=
            [UpdateApplicationStatus applicationId newStatus;
             AddNotification
               (js "Failed to update application: "
                  ++ template (message err))
               NotificationType.ERROR None] |}).
Proof.
  intros Hown Hproj Hfail.
  unfold run, handleApplicationStatusUpdate. rewrite Hown.
  destruct (project snap); [|congruence]. simpl.
  unfold bind, tryCatch, await.
  destruct (updateApplicationStatus backend applicationId newStatus)
    as [r|e]; simpl in *.
  - destruct (reply_error r) as [e|]; [|discriminate].
    exists e. reflexivity.
  - exists e. reflexivity.
Qed.

(** C7. When the backend refuses an application-status update, an error
    notification is posted and the live state (applications, project and
    everything else) is exactly what it was. *)
Theorem application_status_update_failure (backend : Backend)
    (ctx : Context) (snap st : PageState) (applicationId : jsstring)
    (newStatus : ApplicationStatus.t) :
  isOwner (permissionsOf ctx snap) = true ->
  project snap <> None ->
  callFailed (updateApplicationStatus backend applicationId newStatus)
    = true ->
  let after :=
    snd (run (handleApplicationStatusUpdate backend ctx snap applicationId
                newStatus) st) in
  page after = st
  /\ existsb isErrorNotification (trace after) = true
  /\ List.length (filter isErrorNotification (trace after)) = 1.
Proof.
  intros Hown Hproj Hfail after.
  destruct (@handleApplicationStatusUpdate_failure backend ctx snap st
              applicationId newStatus Hown Hproj Hfail) as [err Hrun].
  unfold after. rewrite Hrun. simpl. repeat split.
Qed.

Lemma application_status_update_failure_witness :
  let after :=
    snd (run (handleApplicationStatusUpdate Sample.failingBackend
                Sample.ownerCtx Sample.loaded (js "a1")
                ApplicationStatus.ACCEPTED) Sample.loaded) in
  page after = Sample.loaded
  /\ existsb isErrorNotification (trace after) = true
  /\ List.length (filter isErrorNotification (trace after)) = 1.
Proof.
  apply (@application_status_update_failure Sample.failingBackend
           Sample.ownerCtx Sample.loaded Sample.loaded (js "a1")
           ApplicationStatus.ACCEPTED);
    try reflexivity.
  discriminate.
Defined.

(* ================================================================== *)
(** ** Milestone completion *)

(** The record that takes the place of a matching milestone. *)
Lemma patchMilestones_spec (milestoneId : jsstring)
    (returned : option Milestone.t) (p : Project.t)
    (ms : list Milestone.t) :
  Project.milestones p = Some ms ->
  exists ms',
    patchMilestones milestoneId returned (Some p)
    = Some (Project.with_milestones p (Some ms'))
    /\ List.length ms' = List.length ms
    /\ forall i m, nth_error ms i = Some m ->
         (Milestone.id m = milestoneId ->
            nth_error ms' i
            = Some match returned with
                   | Some d => d
                   | None => Milestone.with_status m MilestoneStatus.COMPLETED
                   end)
         /\ (Milestone.id m <> milestoneId -> nth_error ms' i = Some m).
Proof.
  intros Hms. simpl. rewrite Hms. simpl. eexists. split; [reflexivity|].
  split; [apply length_map|].
  intros i m Hi. rewrite nth_error_map, Hi. simpl. split; intros Hid.
  - now rewrite (proj2 (strict_eq_iff _ _) Hid).
  - now rewrite (proj2 (strict_eq_false_iff _ _) Hid).
Qed.


(** The whole run of a milestone update the backend accepts. *)
Lemma handleMarkMilestoneComplete_success (backend : Backend)
    (ctx : Context) (snap st : PageState) (pid milestoneId : jsstring)
    (r : Reply Milestone.t) :
  isOwner (permissionsOf ctx snap) = true ->
  projectId ctx = Some pid -> pid <> [] ->
  updateMilestoneStatus backend milestoneId pid MilestoneStatus.COMPLETED
    = Resolved r ->
  reply_error r = None ->
  run (handleMarkMilestoneComplete backend ctx snap milestoneId) st
  = (Normal tt,
     {| page := updProject (patchMilestones milestoneId (data r)) st;
        trace :=
          [UpdateMilestoneStatus milestoneId pid MilestoneStatus.COMPLETED;
           AddNotification (js "Milestone marked as complete.")
             NotificationType.SUCCESS None] |}).
Proof.
  intros Hown Hp Hne Hans Herr.
  unfold run, handleMarkMilestoneComplete. rewrite Hp, Hown.
  destruct pid as [|c pid]; [congruence|]. simpl.
  unfold bind, tryCatch, await. rewrite Hans, Herr. reflexivity.
Qed.

(** The whole run of a milestone update the backend refuses. *)
Lemma handleMarkMilestoneComplete_failure (backend : Backend)
    (ctx : Context) (snap st : PageState) (pid milestoneId : jsstring) :
  isOwner (permissionsOf ctx snap) = true ->
  projectId ctx = Some pid -> pid <> [] ->
  callFailed
    (updateMilestoneStatus backend milestoneId pid MilestoneStatus.COMPLETED)
    = true ->
  exists err,
    run (handleMarkMilestoneComplete backend ctx snap milestoneId) st
    = (Normal tt,
       {| page := st;
          trace :=
            [UpdateMilestoneStatus milestoneId pid MilestoneStatus.COMPLETED;
             AddNotification
               (js "Failed to update milestone: " ++ template (message err))
               NotificationType.ERROR None] |}).
Proof.
  intros Hown Hp Hne Hfail.
  unfold run, handleMarkMilestoneComplete. rewrite Hp, Hown.
  destruct pid as [|c pid]; [congruence|]. simpl.
  unfold bind, tryCatch, await.
  destruct (updateMilestoneStatus backend milestoneId (c :: pid)
              MilestoneStatus.COMPLETED) as [r|e]; simpl in *.
  - destruct (reply_error r) as [e|]; [|discriminate].
    exists e. reflexivity.
  - exists e. reflexivity.
Qed.

(** C8. When the owner's milestone update succeeds, every milestone of
    the local project with the given id is replaced by the record the
    server returned, or, when none came back, now has the status COMPLETED
    with its id, description and amount as before; the other milestones,
    the length of the list and the other fields of the project are
    unchanged. When the update fails an error notification is posted and
    the state is left as it was. *)
Theorem milestone_complete (backend : Backend) (ctx : Context)
    (snap st : PageState) (pid milestoneId : jsstring) :
  isOwner (permissionsOf ctx snap) = true ->
  projectId ctx = Some pid -> pid <> [] ->
  let answer :=
    updateMilestoneStatus backend milestoneId pid MilestoneStatus.COMPLETED in
  let after :=
    snd (run (handleMarkMilestoneComplete backend ctx snap milestoneId) st) in
  (forall r, answer = Resolved r -> reply_error r = None ->
     forall p ms, project st = Some p -> Project.milestones p = Some ms ->
       exists p' ms',
         project (page after) = Some p'
         /\ Project.milestones p' = Some ms'
         /\ Project.id p' = Project.id p
         /\ Project.title p' = Project.title p
         /\ Project.posted_by_user_id p' = Project.posted_by_user_id p
         /\ Project.status p' = Project.status p
         /\ Project.applications p' = Project.applications p
         /\ List.length ms' = List.length ms
         /\ forall i m, nth_error ms i = Some m ->
              (Milestone.id m = milestoneId ->
                 exists m',
                   nth_error ms' i = Some m'
                   /\ (forall d, data r = Some d -> m' = d)
                   /\ (data r = None ->
                       Milestone.status m' = MilestoneStatus.COMPLETED
                       /\ Milestone.id m' = Milestone.id m
                       /\ Milestone.description m' = Milestone.description m
                       /\ Milestone.amount m' = Milestone.amount m))
              /\ (Milestone.id m <> milestoneId -> nth_error ms' i = Some m))
  /\ (callFailed answer = true ->
        existsb isErrorNotification (trace after) = true
        /\ page after = st).
Proof.
  intros Hown Hp Hne answer after. split.
  - intros r Hans Herr p ms Hproj Hms. unfold after.
    rewrite (handleMarkMilestoneComplete_success backend ctx snap st pid
               milestoneId r Hown Hp Hne Hans Herr).
    simpl. rewrite Hproj.
    destruct (patchMilestones_spec milestoneId (data r) p ms Hms)
      as [ms' [Heq [Hlen Hnth]]].
    exists (Project.with_milestones p (Some ms')), ms'.
    split; [exact Heq|]. simpl.
    do 6 (split; [reflexivity|]). split; [exact Hlen|].
    intros i m Hi. destruct (Hnth i m Hi) as [Hsame Hother].
    split; [|exact Hother].
    intros Hid. specialize (Hsame Hid).
    destruct (data r) as [d|].
    + exists d. split; [exact Hsame|].
      split; [intros d' Hd; now injection Hd | discriminate].
    + exists (Milestone.with_status m MilestoneStatus.COMPLETED).
      split; [exact Hsame|].
      split; [discriminate | intros _; simpl; repeat split].
  - intros Hfail.
    destruct (handleMarkMilestoneComplete_failure backend ctx snap st pid
                milestoneId Hown Hp Hne Hfail) as [err Hrun].
    unfold after. rewrite Hrun. split; reflexivity.
Qed.

Lemma milestone_complete_witness :
  let answer :=
    updateMilestoneStatus Sample.okBackend (js "m1") (js "p1")
      MilestoneStatus.COMPLETED in
  let after :=
    snd (run (handleMarkMilestoneComplete Sample.okBackend Sample.ownerCtx
                Sample.loaded (js "m1")) Sample.loaded) in
  (forall r, answer = Resolved r -> reply_error r = None ->
     forall p ms, project Sample.loaded = Some p ->
       Project.milestones p = Some ms ->
       exists p' ms',
         project (page after) = Some p'
         /\ Project.milestones p' = Some ms'
         /\ Project.id p' = Project.id p
         /\ Project.title p' = Project.title p
         /\ Project.posted_by_user_id p' = Project.posted_by_user_id p
         /\ Project.status p' = Project.status p
         /\ Project.applications p' = Project.applications p
         /\ List.length ms' = List.length ms
         /\ forall i m, nth_error ms i = Some m ->
              (Milestone.id m = js "m1" ->
                 exists m',
                   nth_error ms' i = Some m'
                   /\ (forall d, data r = Some d -> m' = d)
                   /\ (data r = None ->
                       Milestone.status m' = MilestoneStatus.COMPLETED
                       /\ Milestone.id m' = Milestone.id m
                       /\ Milestone.description m' = Milestone.description m
                       /\ Milestone.amount m' = Milestone.amount m))
              /\ (Milestone.id m <> js "m1" -> nth_error ms' i = Some m))
  /\ (callFailed answer = true ->
        existsb isErrorNotification (trace after) = true
        /\ page after = Sample.loaded).
Proof.
  apply (milestone_complete Sample.okBackend Sample.ownerCtx Sample.loaded
           Sample.loaded (js "p1") (js "m1"));
    try reflexivity.
  discriminate.
Defined.

(* ================================================================== *)
(** ** Page states *)

Lemma kindOf_render (ctx : Context) (st : PageState) :
  kindOf (render ctx st)
  = if isLoading st then Loading
    else if truthy_ostr (error st) then FatalError
    else match project st with None => FatalError | Some _ => Loaded end.
Proof.
  unfold render.
  destruct (isLoading st); [reflexivity|].
  destruct (truthy_ostr (error st)); [reflexivity|].
  destruct (project st); reflexivity.
Qed.

(** Loading the chat history never touches what [render] branches on,
    whatever the backend answers. *)
Lemma fetchMessages_view (backend : Backend) (ctx : Context)
    (snap st : PageState) :
  let after := page (snd (run (fetchMessages backend ctx snap) st)) in
  project after = project st /\ applications after = applications st
  /\ isLoading after = isLoading st /\ error after = error st.
Proof.
  unfold run, fetchMessages.
  destruct (projectId ctx) as [pid|]; [|simpl; auto].
  destruct (negb (canChat (permissionsOf ctx snap)) || negb (truthy_str pid));
    [simpl; auto|].
  unfold bind, tryCatch, await.
  destruct (selectMessages backend pid) as [r|e]; simpl; auto.
  destruct (reply_error r); simpl; auto.
Qed.

(** A chat history that fails to load costs a console line and a
    warning; the message list stays as it was. *)
Lemma fetchMessages_failure (backend : Backend) (ctx : Context)
    (snap st : PageState) (pid : jsstring) :
  projectId ctx = Some pid -> pid <> [] ->
  canChat (permissionsOf ctx snap) = true ->
  callFailed (selectMessages backend pid) = true ->
  run (fetchMessages backend ctx snap) st
  = (Normal tt,
     {| page := st;
        trace := [SelectMessages pid;
                  ConsoleError (js "Error fetching messages:");
                  AddNotification (js "Failed to load chat messages.")
                    NotificationType.WARNING None] |}).
Proof.
  intros Hp Hne Hchat Hfail. unfold run, fetchMessages.
  rewrite Hp, Hchat. destruct pid as [|c pid]; [congruence|]. simpl.
  unfold bind, tryCatch, await.
  destruct (selectMessages backend (c :: pid)) as [r|e]; simpl in *.
  - destruct (reply_error r); [reflexivity|discriminate].
  - reflexivity.
Qed.

(** A project fetch that fails ends in the fatal-error state. *)
Lemma fetchProjectDetails_failure (backend : Backend) (ctx : Context)
    (st : PageState) (pid : jsstring) :
  projectId ctx = Some pid -> pid <> [] ->
  (callFailed (getProjectById backend pid) = true
   \/ exists r, getProjectById backend pid = Resolved r /\ data r = None) ->
  kindOf (render ctx (page (snd (run (fetchProjectDetails backend ctx) st))))
  = FatalError.
Proof.
  intros Hp Hne Hfail. rewrite kindOf_render.
  unfold run, fetchProjectDetails. rewrite Hp.
  destruct pid as [|c pid]; [congruence|]. simpl.
  unfold bind, tryFinally, tryCatch, await, modify, addNotification, emit.
  simpl.
  assert (Hor : forall m d, truthy_str d = true -> truthy_str (or_str m d) = true).
  { intros [[|x m]|] d Hd; simpl; auto. }
  destruct (getProjectById backend (c :: pid)) as [r|e]; simpl in *.
  - destruct (reply_error r) as [e|] eqn:Er; simpl.
    + now rewrite Hor.
    + destruct Hfail as [Hf | [r' [Hr' Hd]]]; [discriminate|].
      injection Hr' as <-. rewrite Hd. reflexivity.
  - now rewrite Hor.
Qed.

(** A project fetch that succeeds ends in the loaded state. *)
Lemma fetchProjectDetails_success (backend : Backend) (ctx : Context)
    (st : PageState) (pid : jsstring) (r : Reply Project.t) (d : Project.t) :
  projectId ctx = Some pid -> pid <> [] ->
  getProjectById backend pid = Resolved r ->
  reply_error r = None -> data r = Some d ->
  exists perms,
    render ctx (page (snd (run (fetchProjectDetails backend ctx) st)))
    = ProjectView d perms.
Proof.
  intros Hp Hne Hans Herr Hd.
  unfold run, fetchProjectDetails. rewrite Hp.
  destruct pid as [|c pid]; [congruence|]. simpl.
  unfold bind, tryFinally, tryCatch, await, modify. simpl.
  rewrite Hans. simpl. rewrite Herr, Hd. simpl.
  eexists. reflexivity.
Qed.

(** C9. Every state of the component renders as exactly one of loading,
    fatal error and loaded: loading while [isLoading] is set; fatal error
    when loading is over and an error was recorded or no project is
    held; loaded otherwise. Fetching the chat history, whatever the
    backend answers, leaves the rendered view as it was, so its failure
    never produces the fatal-error state. *)
Theorem page_states_exclusive (ctx : Context) (st : PageState) :
  (exists! k, kindOf (render ctx st) = k)
  /\ (kindOf (render ctx st) = Loading <-> isLoading st = true)
  /\ (kindOf (render ctx st) = FatalError <->
        isLoading st = false
        /\ (truthy_ostr (error st) = true \/ project st = None))
  /\ (kindOf (render ctx st) = Loaded <->
        isLoading st = false /\ truthy_ostr (error st) = false
        /\ project st <> None)
  /\ (forall backend snap,
        render ctx (page (snd (run (fetchMessages backend ctx snap) st)))
        = render ctx st).
Proof.
  split; [|split; [|split; [|split]]].
  - exists (kindOf (render ctx st)). split; [reflexivity|auto].
  - rewrite kindOf_render.
    destruct (isLoading st), (truthy_ostr (error st)), (project st);
      split; congruence.
  - rewrite kindOf_render.
    destruct (isLoading st), (truthy_ostr (error st)), (project st);
      intuition congruence.
  - rewrite kindOf_render.
    destruct (isLoading st), (truthy_ostr (error st)), (project st);
      intuition congruence.
  - intros backend snap.
    destruct (fetchMessages_view backend ctx snap st)
      as (Hp & Ha & Hl & He).
    unfold render, permissionsOf. rewrite Hp, Ha, Hl, He. reflexivity.
Qed.

(* ================================================================== *)
(** ** The realtime subscription *)

Section SubscriptionGuard.

Import ChatSubscription.

(** The presence check of line 99: with a stored handle the effect
    opens nothing. *)
Lemma effectBody_guarded (pid : option jsstring) (cc : bool)
    (ch : Channel.t) (w : World) :
  effectBody pid cc (Some ch) w = w.
Proof.
  unfold effectBody. destruct pid as [p|]; [|reflexivity].
  simpl. now rewrite andb_false_r.
Qed.

Lemma runPendingCleanup_keeps (w : World) :
  subscriptions (runPendingCleanup w) = subscriptions w
  /\ chatChannelState (runPendingCleanup w) = chatChannelState w
  /\ created (runPendingCleanup w) = created w.
Proof.
  unfold runPendingCleanup, subscriptions.
  destruct (pendingCleanup w) as [[ch|]|]; simpl; auto.
  rewrite filter_app, length_app. simpl. auto with arith.
Qed.

Lemma step_render_guarded (w : World) (pid : option jsstring) (cc : bool) :
  guarded w -> guarded (step w (Render pid cc)).
Proof.
  intros [Hle Hnone]. unfold guarded, step.
  destruct (match lastDeps w with
            | Some d => sameDeps d (pid, cc)
            | None => false
            end); [split; assumption|].
  destruct (runPendingCleanup_keeps w) as (Hs & Hc & _).
  unfold subscriptions in *.
  destruct (chatChannelState w) as [ch|] eqn:Ech.
  - rewrite effectBody_guarded. cbn [actions chatChannelState].
    rewrite Hs, Hc. split; [assumption | discriminate].
  - specialize (Hnone eq_refl).
    unfold effectBody. destruct pid as [p|].
    + destruct (cc && truthy_str p && negb (truthy None));
        cbn [actions chatChannelState].
      * rewrite filter_app, length_app, Hs, Hnone. simpl.
        split; [lia | discriminate].
      * rewrite Hs, Hnone. split; [lia | reflexivity].
    + cbn [actions chatChannelState].
      rewrite Hs, Hnone. split; [lia | reflexivity].
Qed.

(** While the page stays mounted the effect opens at most one channel,
    however the project identifier and the chat permission change. *)
Lemma one_subscription_while_mounted (l : list Step) :
  forallb isRender l = true -> subscriptions (steps l) <= 1.
Proof.
  intros Hl. unfold steps.
  assert (H : forall w, guarded w -> guarded (fold_left step l w)).
  { induction l as [|s l IH]; intros w Hw; [exact Hw|].
    simpl in Hl. apply andb_true_iff in Hl. destruct Hl as [Hs Hl].
    destruct s as [pid cc|]; [|discriminate].
    simpl. apply (IH Hl). now apply step_render_guarded. }
  apply H. split; [unfold subscriptions; simpl; lia | reflexivity].
Qed.

End SubscriptionGuard.

(** C4, on the code. The cleanup of the effect closes over the
    [chatChannel] of the render that ran the effect, which is still null
    when the effect has just opened the channel. So (1) on unmount, and
    (2) on the first change of the project identifier, the open channel is
    not released and stays live, and no channel is opened for the new
    project; (3) when the chat permission is lost and regained the old
    channel is released one change late and none is opened again;
    (4) a page mounted again for the same project opens a second channel
    besides the one that was never released. *)
Theorem chat_subscription_stale_cleanup :
  let p1 := Some (js "p1") in
  let p2 := Some (js "p2") in
  let unmounted :=
    ChatSubscription.steps
      [ChatSubscription.Render p1 false; ChatSubscription.Render p1 true;
       ChatSubscription.Render p1 true; ChatSubscription.Unmount] in
  let moved :=
    ChatSubscription.steps
      [ChatSubscription.Render p1 true; ChatSubscription.Render p2 true] in
  let regained :=
    ChatSubscription.steps
      [ChatSubscription.Render p1 true; ChatSubscription.Render p1 false;
       ChatSubscription.Render p1 true] in
  let remounted :=
    ChatSubscription.steps
      [ChatSubscription.Render p1 true; ChatSubscription.Unmount;
       ChatSubscription.Render p1 true] in
  (ChatSubscription.subscriptions unmounted = 1
   /\ ChatSubscription.releases unmounted = 0
   /\ List.length (ChatSubscription.live unmounted) = 1)
  /\ (ChatSubscription.releases moved = 0
      /\ List.length (ChatSubscription.liveFor (js "p1") moved) = 1
      /\ ChatSubscription.liveFor (js "p2") moved = [])
  /\ (ChatSubscription.releases
        (ChatSubscription.steps
           [ChatSubscription.Render p1 true; ChatSubscription.Render p1 false])
      = 0
      /\ ChatSubscription.releases regained = 1
      /\ ChatSubscription.live regained = [])
  /\ List.length (ChatSubscription.liveFor (js "p1") remounted) = 2.
Proof. vm_compute. repeat split. Qed.

(* ================================================================== *)
(** ** Concrete runs on the sample data *)

Example trim_spaces :
  trim (js "  see notes  ") = js "see notes"
  /\ trim [9; 160; 8232; 65279]%N = []
  /\ trim (js "a b") = js "a b".
Proof. repeat split. Qed.

(** The applicant may apply to the open project and may not chat yet; the
    owner may chat and manage. *)
Example sample_permissions :
  let fresh := updApplications (fun _ => [Sample.application2]) Sample.loaded in
  canApply (derivePermissions (Some Sample.applicant) (project fresh)
              (applications fresh)) = true
  /\ canApply (permissionsOf {| projectId := Some (js "p1");
                               user := Some Sample.applicant |}
                 Sample.loaded) = false
  /\ hasApplied (permissionsOf {| projectId := Some (js "p1");
                                 user := Some Sample.applicant |}
                   Sample.loaded) = true
  /\ canChat (permissionsOf Sample.ownerCtx Sample.loaded) = true
  /\ canManage (permissionsOf Sample.ownerCtx Sample.loaded) = true.
Proof. repeat split. Qed.

(** A send with an attachment on a healthy backend: upload, then
    [sendMessage] with the public URL; the returned record is appended and
    the compose fields are cleared. *)
Example sample_send :
  run (handleSendMessage Sample.okBackend Sample.ownerCtx
         (updNewMessage (js " Thanks ") Sample.composing))
      (updNewMessage (js " Thanks ") Sample.composing)
  = (Normal tt,
     {| page :=
          updMessages (fun _ => [Sample.message1; Sample.message2])
            (updNewMessage [] Sample.loaded);
        trace :=
          [UploadFile Sample.notes (js "project-chat-attachments");
           SendMessage (js "p1") (js "Thanks")
             (Some (js "https://cdn/notes.pdf"))] |}).
Proof. reflexivity. Qed.

(** Accepting the first application: it alone changes, and the project
    moves to IN_PROGRESS. *)
Example sample_accept :
  let after :=
    page (snd (run (handleApplicationStatusUpdate Sample.okBackend
                      Sample.ownerCtx Sample.loaded (js "a1")
                      ApplicationStatus.ACCEPTED) Sample.loaded)) in
  applications after
  = [Application.with_status Sample.application1 ApplicationStatus.ACCEPTED;
     Sample.application2]
  /\ option_map Project.status (project after)
     = Some ProjectStatus.IN_PROGRESS.
Proof. split; reflexivity. Qed.

(** A visitor who does not own the project cannot trigger the update:
    the handler returns at its guard. *)
Example sample_accept_not_owner :
  run (handleApplicationStatusUpdate Sample.okBackend
         {| projectId := Some (js "p1"); user := Some Sample.applicant |}
         Sample.loaded (js "a1") ApplicationStatus.ACCEPTED) Sample.loaded
  = (Normal tt, {| page := Sample.loaded; trace := [] |}).
Proof. reflexivity. Qed.

(** Completing the first milestone when the server returns no record. *)
Example sample_milestone :
  option_map Project.milestones
    (project
       (page (snd (run (handleMarkMilestoneComplete Sample.okBackend
                          Sample.ownerCtx Sample.loaded (js "m1"))
                       Sample.loaded))))
  = Some (Some [Milestone.with_status Sample.milestone1
                  MilestoneStatus.COMPLETED;
                Sample.milestone2]).
Proof. reflexivity. Qed.

(** The first load of the page, failing and succeeding. *)
Example sample_first_load :
  kindOf (render Sample.ownerCtx (initialState false)) = Loading
  /\ kindOf (render Sample.ownerCtx
               (page (snd (run (fetchProjectDetails Sample.failingBackend
                                  Sample.ownerCtx) (initialState false)))))
     = FatalError
  /\ kindOf (render Sample.ownerCtx
               (page (snd (run (fetchProjectDetails Sample.okBackend
                                  Sample.ownerCtx) (initialState false)))))
     = Loaded
  /\ kindOf (render Sample.ownerCtx
               (page (snd (run (fetchMessages Sample.failingBackend
                                  Sample.ownerCtx Sample.loaded)
                               Sample.loaded))))
     = Loaded.
Proof. repeat split. Qed.

(* ================================================================== *)
(** ** More on the permission derivation *)

Lemma find_some_iff (A : Type) (f : A -> bool) (l : list A) :
  truthy (find f l) = true <-> exists x, In x l /\ f x = true.
Proof.
  split.
  - destruct (find f l) as [a|] eqn:E; [|discriminate].
    intros _. exists a. now apply find_some in E.
  - intros [x [Hin Hx]]. destruct (find f l) eqn:E; [reflexivity|].
    rewrite (find_none _ _ E x Hin) in Hx. discriminate.
Qed.

(** [find] returns the first element that passes the test. *)
Lemma find_first_iff (A : Type) (f : A -> bool) (l : list A) (a : A) :
  find f l = Some a <->
  exists l1 l2, l = l1 ++ a :: l2 /\ f a = true
                /\ forall x, In x l1 -> f x = false.
Proof.
  split.
  - induction l as [|b l IH]; simpl; [discriminate|].
    destruct (f b) eqn:Eb.
    + intros H. injection H as ->. exists [], l. repeat split; auto.
      intros x [].
    + intros H. destruct (IH H) as (l1 & l2 & -> & Ha & Hl1).
      exists (b :: l1), l2. repeat split; auto.
      intros x [<-|Hx]; auto.
  - intros (l1 & l2 & -> & Ha & Hl1).
    induction l1 as [|b l1 IH]; simpl.
    + now rewrite Ha.
    + rewrite (Hl1 b (or_introl eq_refl)). apply IH.
      intros x Hx. apply Hl1. now right.
Qed.

Lemma find_filter_implied (A : Type) (f g : A -> bool) (l : list A) :
  (forall x, f x = true -> g x = true) ->
  find f (filter g l) = find f l.
Proof.
  intros Himp. induction l as [|a l IH]; simpl; [reflexivity|].
  destruct (g a) eqn:Eg; simpl.
  - now rewrite IH.
  - destruct (f a) eqn:Ef; [|exact IH].
    rewrite (Himp a Ef) in Eg. discriminate.
Qed.

(** X1. With a signed-in user and a loaded project, the user counts as
    accepted contributor exactly when some application of the list is by
    the user and has the status ACCEPTED. *)
Theorem isAcceptedContributor_iff (u : User.t) (p : Project.t)
    (apps : list Application.t) :
  isAcceptedContributor (derivePermissions (Some u) (Some p) apps) = true <->
  exists a, In a apps
            /\ Application.contributor_user_id a = User.id u
            /\ Application.status a = ApplicationStatus.ACCEPTED.
Proof.
  simpl. rewrite find_some_iff.
  split; intros [a [Hin H]]; exists a; split; auto.
  - apply andb_true_iff in H. destruct H as [H1 H2].
    split; [now apply strict_eq_iff | now apply ApplicationStatus_eqb_iff].
  - destruct H as [H1 H2]. apply andb_true_iff.
    split; [now apply strict_eq_iff | now apply ApplicationStatus_eqb_iff].
Qed.

(** X2. The status shown in the applied banner is the status of the
    first application of the list that is by the user; later applications
    by the same user are not looked at. *)
Theorem viewerApplicationStatus_first (u : User.t) (p : Project.t)
    (apps : list Application.t) (s : ApplicationStatus.t) :
  viewerApplicationStatus (derivePermissions (Some u) (Some p) apps) = Some s
  <->
  exists before a rest,
    apps = before ++ a :: rest
    /\ Application.contributor_user_id a = User.id u
    /\ Application.status a = s
    /\ forall x, In x before ->
         Application.contributor_user_id x <> User.id u.
Proof.
  simpl. split.
  - destruct (find _ apps) as [a|] eqn:E; [|discriminate].
    simpl. intros H. injection H as <-.
    apply find_first_iff in E. destruct E as (l1 & l2 & -> & Ha & Hl1).
    exists l1, a, l2. repeat split; auto.
    + now apply strict_eq_iff.
    + intros x Hx. apply strict_eq_false_iff. now apply Hl1.
  - intros (l1 & a & l2 & -> & Ha & Hs & Hl1).
    assert (E : find (fun app =>
                        strict_eq (Application.contributor_user_id app)
                          (User.id u)) (l1 ++ a :: l2) = Some a).
    { apply find_first_iff. exists l1, l2. repeat split; auto.
      - now apply strict_eq_iff.
      - intros x Hx. apply strict_eq_false_iff. now apply Hl1. }
    rewrite E. simpl. now rewrite Hs.
Qed.

(** X3. Whatever the user, the project and the applications (null or
    not), the derived permissions hang together: managing is owning;
    chatting is owning or being accepted; an accepted contributor has
    applied; the banner status is defined exactly when the user has
    applied; and whoever can apply is no owner, has not applied and cannot
    chat or manage. *)
Theorem permissions_consistent (user : option User.t)
    (project : option Project.t) (apps : list Application.t) :
  let perms := derivePermissions user project apps in
  canManage perms = isOwner perms
  /\ canChat perms = (isOwner perms || isAcceptedContributor perms)
  /\ (isAcceptedContributor perms = true -> hasApplied perms = true)
  /\ hasApplied perms = truthy (viewerApplicationStatus perms)
  /\ (canApply perms = true ->
        isOwner perms = false /\ hasApplied perms = false
        /\ canChat perms = false /\ canManage perms = false).
Proof.
  destruct project as [p|], user as [u|]; simpl;
    try (repeat split; congruence).
  assert (Hacc :
    truthy (find (fun app =>
                    strict_eq (Application.contributor_user_id app) (User.id u)
                    && ApplicationStatus.eqb (Application.status app)
                         ApplicationStatus.ACCEPTED) apps) = true ->
    truthy (find (fun app =>
                    strict_eq (Application.contributor_user_id app) (User.id u))
                 apps) = true).
  { rewrite !find_some_iff. intros [a [Hin H]]. exists a. split; auto.
    apply andb_true_iff in H. tauto. }
  split; [reflexivity|]. split; [reflexivity|]. split; [exact Hacc|].
  split.
  { destruct (find (fun app =>
                      strict_eq (Application.contributor_user_id app)
                        (User.id u)) apps); reflexivity. }
  intros H. rewrite !andb_true_iff, !negb_true_iff in H.
  destruct H as [[[_ Ho] Ha] _]. rewrite Ho, Ha. simpl.
  repeat split.
  destruct (truthy (find (fun app => _ && _) apps)); [|reflexivity].
  specialize (Hacc eq_refl). congruence.
Qed.

(** X4. The permissions of a user depend on the user's own applications
    only: dropping every application of another contributor from the list
    changes nothing. *)
Theorem permissions_of_own_applications (u : User.t)
    (project : option Project.t) (apps : list Application.t) :
  derivePermissions (Some u) project
    (filter (fun app =>
               strict_eq (Application.contributor_user_id app) (User.id u))
            apps)
  = derivePermissions (Some u) project apps.
Proof.
  destruct project as [p|]; [|reflexivity]. simpl.
  rewrite !find_filter_implied; [reflexivity | |].
  - auto.
  - intros x H. apply andb_true_iff in H. tauto.
Qed.

(* ================================================================== *)
(** ** Every failure is caught *)

Ltac split_cases :=
  repeat match goal with
         | |- context [match ?x with _ => _ end] =>
           lazymatch type of x with
           | prod _ _ => fail
           | _ => destruct x eqn:?; simpl
           end
         end.

Ltac run_handler :=
  unfold run, bind, tryFinally, tryCatch, await, modify, addNotification,
    emit, throw, ret; simpl.

(** X5. When every promise of the backend resolves to a reply object
    (with or without error, with or without data) or rejects with an
    object as its reason, the two loaders and the three action handlers
    end normally: the exception is caught inside the handler, and a run
    posts at most one notification. A promise rejected with null or
    undefined is outside this statement. *)
Theorem handlers_catch_error_values (backend : Backend) (ctx : Context)
    (snap st : PageState) (applicationId milestoneId : jsstring)
    (newStatus : ApplicationStatus.t) :
  let ends_quietly (r : Completion unit * Store) :=
    fst r = Normal tt
    /\ List.length (notifications (trace (snd r))) <= 1 in
  ends_quietly (run (fetchProjectDetails backend ctx) st)
  /\ ends_quietly (run (fetchMessages backend ctx snap) st)
  /\ ends_quietly (run (handleSendMessage backend ctx snap) st)
  /\ ends_quietly
       (run (handleApplicationStatusUpdate backend ctx snap applicationId
               newStatus) st)
  /\ ends_quietly
       (run (handleMarkMilestoneComplete backend ctx snap milestoneId) st).
Proof.
  intros ends_quietly. unfold ends_quietly.
  split; [|split; [|split; [|split]]].
  - unfold fetchProjectDetails. run_handler. split_cases; auto.
  - unfold fetchMessages. run_handler. split_cases; auto.
  - unfold handleSendMessage. run_handler. split_cases; auto.
  - unfold handleApplicationStatusUpdate. run_handler. split_cases; auto.
  - unfold handleMarkMilestoneComplete. run_handler. split_cases; auto.
Qed.

(* ================================================================== *)
(** ** More on message sending *)

Lemma truthy_str_nonempty (s : jsstring) : s <> [] -> truthy_str s = true.
Proof. destruct s; [congruence | reflexivity]. Qed.

(** The run of a send the backend accepts. *)
Lemma handleSendMessage_sent (backend : Backend) (ctx : Context)
    (snap st : PageState) (pid : jsstring) (u : User.t)
    (url : option jsstring) (r : Reply Message.t) :
  projectId ctx = Some pid -> pid <> [] -> user ctx = Some u ->
  reachesSend backend snap url ->
  sendMessage backend pid (trim (newMessage snap)) url = Resolved r ->
  reply_error r = None ->
  let after := snd (run (handleSendMessage backend ctx snap) st) in
  messages (page after)
  = messages st ++ match data r with Some d => [d] | None => [] end
  /\ newMessage (page after) = []
  /\ attachment (page after) = None
  /\ isSendingMessage (page after) = false
  /\ trace after
     = uploadTrace snap ++ [SendMessage pid (trim (newMessage snap)) url].
Proof.
  intros Hp Hne Hu Hreach Hsend Herr.
  unfold reachesSend, uploadTrace in *. unfold handleSendMessage.
  rewrite Hp, Hu. rewrite (truthy_str_nonempty pid Hne).
  destruct (attachment snap) as [f|].
  - destruct Hreach as (up & Hup & Hue & Hurl & Hturl).
    rewrite andb_false_r. run_handler.
    rewrite Hup, Hue, Hurl, Hturl. simpl. rewrite Hsend, Herr.
    destruct (data r); simpl; rewrite ?app_nil_r; repeat split.
  - destruct Hreach as [-> Htext].
    rewrite (truthy_str_nonempty _ Htext). run_handler.
    rewrite Hsend, Herr.
    destruct (data r); simpl; rewrite ?app_nil_r; repeat split.
Qed.

(** X6. A send that the backend accepts: the attachment, if any, is
    uploaded first and [sendMessage] gets the trimmed text and the public
    URL of the upload; the returned record is appended at the end of the
    live list, the text box and the attachment are cleared and the sending
    flag is off again. *)
Theorem send_success (backend : Backend) (ctx : Context)
    (snap st : PageState) (pid : jsstring) (u : User.t)
    (url : option jsstring) (r : Reply Message.t) :
  projectId ctx = Some pid -> pid <> [] -> user ctx = Some u ->
  reachesSend backend snap url ->
  sendMessage backend pid (trim (newMessage snap)) url = Resolved r ->
  reply_error r = None ->
  let after := snd (run (handleSendMessage backend ctx snap) st) in
  messages (page after)
  = messages st ++ match data r with Some d => [d] | None => [] end
  /\ newMessage (page after) = []
  /\ attachment (page after) = None
  /\ isSendingMessage (page after) = false
  /\ trace after
     = uploadTrace snap ++ [SendMessage pid (trim (newMessage snap)) url].
Proof. exact (handleSendMessage_sent backend ctx snap st pid u url r). Qed.

Lemma send_success_witness :
  let snap := updNewMessage (js " Thanks ") Sample.composing in
  let after :=
    snd (run (handleSendMessage Sample.okBackend Sample.ownerCtx snap)
             snap) in
  messages (page after) = messages snap ++ [Sample.message2]
  /\ newMessage (page after) = []
  /\ attachment (page after) = None
  /\ isSendingMessage (page after) = false
  /\ trace after
     = uploadTrace snap
       ++ [SendMessage (js "p1") (trim (newMessage snap))
             (Some (js "https://cdn/notes.pdf"))].
Proof.
  apply (send_success Sample.okBackend Sample.ownerCtx
           (updNewMessage (js " Thanks ") Sample.composing)
           (updNewMessage (js " Thanks ") Sample.composing)
           (js "p1") Sample.lead (Some (js "https://cdn/notes.pdf"))
           {| data := Some Sample.message2; reply_error := None |});
    try reflexivity.
  - discriminate.
  - exists {| publicUrl := Some (js "https://cdn/notes.pdf");
              upload_error := None |}.
    repeat split.
Defined.

(** X7. A send whose [sendMessage] call fails (after a successful
    upload, if there was an attachment): nothing is appended, the draft
    (text and attachment) stays in place for another try, one error
    notification is posted and the sending flag is off again. *)
Theorem send_failure_keeps_draft (backend : Backend) (ctx : Context)
    (snap st : PageState) (pid : jsstring) (u : User.t)
    (url : option jsstring) :
  projectId ctx = Some pid -> pid <> [] -> user ctx = Some u ->
  reachesSend backend snap url ->
  callFailed (sendMessage backend pid (trim (newMessage snap)) url) = true ->
  let after := snd (run (handleSendMessage backend ctx snap) st) in
  messages (page after) = messages st
  /\ newMessage (page after) = newMessage st
  /\ attachment (page after) = attachment st
  /\ isSendingMessage (page after) = false
  /\ List.length (filter isErrorNotification (trace after)) = 1
  /\ backendCalls (trace after)
     = uploadTrace snap ++ [SendMessage pid (trim (newMessage snap)) url].
Proof.
  intros Hp Hne Hu Hreach Hfail.
  unfold reachesSend, uploadTrace in *. unfold handleSendMessage.
  rewrite Hp, Hu. rewrite (truthy_str_nonempty pid Hne).
  destruct (attachment snap) as [f|].
  - destruct Hreach as (up & Hup & Hue & Hurl & Hturl).
    rewrite andb_false_r. run_handler.
    rewrite Hup, Hue, Hurl, Hturl. simpl.
    destruct (sendMessage backend pid (trim (newMessage snap)) url)
      as [r|e]; simpl in *.
    + destruct (reply_error r); [|discriminate]. repeat split.
    + repeat split.
  - destruct Hreach as [-> Htext].
    rewrite (truthy_str_nonempty _ Htext). run_handler.
    destruct (sendMessage backend pid (trim (newMessage snap)) None)
      as [r|e]; simpl in *.
    + destruct (reply_error r); [|discriminate]. repeat split.
    + repeat split.
Qed.

Lemma send_failure_keeps_draft_witness :
  let snap := updNewMessage (js "Thanks") Sample.loaded in
  let after :=
    snd (run (handleSendMessage Sample.failingBackend Sample.ownerCtx snap)
             snap) in
  messages (page after) = messages snap
  /\ newMessage (page after) = newMessage snap
  /\ attachment (page after) = attachment snap
  /\ isSendingMessage (page after) = false
  /\ List.length (filter isErrorNotification (trace after)) = 1
  /\ backendCalls (trace after)
     = uploadTrace snap
       ++ [SendMessage (js "p1") (trim (newMessage snap)) None].
Proof.
  apply (send_failure_keeps_draft Sample.failingBackend Sample.ownerCtx
           (updNewMessage (js "Thanks") Sample.loaded)
           (updNewMessage (js "Thanks") Sample.loaded)
           (js "p1") Sample.lead None);
    try reflexivity.
  - discriminate.
  - split; [reflexivity | discriminate].
Defined.

Lemma filter_nothing (A : Type) (f : A -> bool) (l : list A) :
  (forall x, In x l -> f x = false) -> filter f l = [].
Proof.
  induction l as [|a l IH]; simpl; intros H; [reflexivity|].
  rewrite (H a (or_introl eq_refl)). apply IH. intros x Hx. apply H. now right.
Qed.

(** X8. The send handler and the realtime feed meet on the same record.
    When the realtime event of a sent message comes after the handler
    appended the returned record, the merge drops it and the list holds
    the message once. When the event is handled first, the handler still
    appends the returned record without looking at the list, and the
    message is held twice. *)
Theorem send_and_realtime_echo (backend : Backend) (ctx : Context)
    (snap st : PageState) (pid : jsstring) (u : User.t)
    (url : option jsstring) (r : Reply Message.t) (d echo : Message.t)
    (senderData : Reply Sender.t) :
  projectId ctx = Some pid -> pid <> [] -> user ctx = Some u ->
  reachesSend backend snap url ->
  sendMessage backend pid (trim (newMessage snap)) url = Resolved r ->
  reply_error r = None -> data r = Some d ->
  selectSender backend (Message.sender_user_id echo) = Resolved senderData ->
  Message.id echo = Message.id d ->
  let send := handleSendMessage backend ctx snap in
  let sent_first :=
    page (snd (run (onInsert backend echo) (page (snd (run send st))))) in
  let echo_first :=
    page (snd (run send (page (snd (run (onInsert backend echo) st))))) in
  messages sent_first = messages st ++ [d]
  /\ ((forall m, In m (messages st) -> Message.id m <> Message.id d) ->
      messages echo_first
      = messages st ++ [Message.with_sender_user echo (data senderData); d]
      /\ occurrences (Message.id d) (messages echo_first) = 2).
Proof.
  intros Hp Hne Hu Hreach Hsend Herr Hd Hsel Hid send sent_first echo_first.
  split.
  - unfold sent_first, send, run at 1.
    rewrite (onInsert_resolved _ _ _ _ Hsel). simpl.
    destruct (handleSendMessage_sent backend ctx snap st pid u url r
                Hp Hne Hu Hreach Hsend Herr) as (Hm & _).
    rewrite Hm, Hd. apply mergeMessage_present.
    exists d. split; [apply in_or_app; right; now left | simpl; congruence].
  - intros Hfresh. unfold echo_first, send.
    destruct (handleSendMessage_sent backend ctx snap
                (page (snd (run (onInsert backend echo) st))) pid u url r
                Hp Hne Hu Hreach Hsend Herr) as (Hm & _).
    rewrite Hm, Hd. unfold run.
    rewrite (onInsert_resolved _ _ _ _ Hsel). simpl.
    rewrite mergeMessage_absent
      by (simpl; rewrite Hid; exact Hfresh).
    rewrite <- app_assoc. simpl. split; [reflexivity|].
    unfold occurrences. rewrite filter_app, length_app.
    rewrite filter_nothing
      by (intros x Hx; apply strict_eq_false_iff; now apply Hfresh).
    simpl. rewrite Hid, strict_eq_refl. reflexivity.
Qed.

Lemma send_and_realtime_echo_witness :
  let snap := updNewMessage (js "Thanks") Sample.loaded in
  let send := handleSendMessage Sample.okBackend Sample.ownerCtx snap in
  let sent_first :=
    page (snd (run (onInsert Sample.okBackend Sample.message2)
                 (page (snd (run send snap))))) in
  let echo_first :=
    page (snd (run send
                 (page (snd (run (onInsert Sample.okBackend Sample.message2)
                               snap))))) in
  messages sent_first = messages snap ++ [Sample.message2]
  /\ ((forall m, In m (messages snap) ->
         Message.id m <> Message.id Sample.message2) ->
      messages echo_first
      = messages snap
        ++ [Message.with_sender_user Sample.message2
              (Some Sample.annProfile);
            Sample.message2]
      /\ occurrences (Message.id Sample.message2) (messages echo_first) = 2).
Proof.
  apply (send_and_realtime_echo Sample.okBackend Sample.ownerCtx
           (updNewMessage (js "Thanks") Sample.loaded)
           (updNewMessage (js "Thanks") Sample.loaded)
           (js "p1") Sample.lead None
           {| data := Some Sample.message2; reply_error := None |}
           Sample.message2 Sample.message2
           {| data := Some Sample.annProfile; reply_error := None |});
    try reflexivity.
  - discriminate.
  - split; [reflexivity | discriminate].
Defined.

(* ================================================================== *)
(** ** More on the owner's actions *)

Lemma isOwner_false (ctx : Context) (snap : PageState) :
  (forall u p, user ctx = Some u -> project snap = Some p ->
     User.id u <> Project.posted_by_user_id p) ->
  isOwner (permissionsOf ctx snap) = false.
Proof.
  intros H. unfold permissionsOf, derivePermissions.
  destruct (project snap) as [p|]; [|reflexivity].
  destruct (user ctx) as [u|]; [|reflexivity].
  simpl. apply strict_eq_false_iff. now apply H.
Qed.

(** X9. A viewer who is not the owner of the loaded project (another
    user, nobody signed in, or no project loaded) cannot act as one: both
    owner handlers return at their guard, with no backend call, no
    notification and no change of state. *)
Theorem owner_only_actions (backend : Backend) (ctx : Context)
    (snap st : PageState) (applicationId milestoneId : jsstring)
    (newStatus : ApplicationStatus.t) :
  (forall u p, user ctx = Some u -> project snap = Some p ->
     User.id u <> Project.posted_by_user_id p) ->
  run (handleApplicationStatusUpdate backend ctx snap applicationId
         newStatus) st
  = (Normal tt, {| page := st; trace := [] |})
  /\ run (handleMarkMilestoneComplete backend ctx snap milestoneId) st
     = (Normal tt, {| page := st; trace := [] |}).
Proof.
  intros H. pose proof (isOwner_false ctx snap H) as Hown.
  unfold run, handleApplicationStatusUpdate, handleMarkMilestoneComplete.
  rewrite Hown. simpl. split; [reflexivity|].
  destruct (projectId ctx); reflexivity.
Qed.

Lemma owner_only_actions_witness :
  let visitor :=
    {| projectId := Some (js "p1"); user := Some Sample.applicant |} in
  run (handleApplicationStatusUpdate Sample.okBackend visitor Sample.loaded
         (js "a1") ApplicationStatus.ACCEPTED) Sample.loaded
  = (Normal tt, {| page := Sample.loaded; trace := [] |})
  /\ run (handleMarkMilestoneComplete Sample.okBackend visitor Sample.loaded
            (js "m1")) Sample.loaded
     = (Normal tt, {| page := Sample.loaded; trace := [] |}).
Proof.
  apply (owner_only_actions Sample.okBackend
           {| projectId := Some (js "p1"); user := Some Sample.applicant |}
           Sample.loaded Sample.loaded (js "a1") (js "m1")
           ApplicationStatus.ACCEPTED).
  intros u p Hu Hp. injection Hu as <-. injection Hp as <-. discriminate.
Defined.


Lemma patchApplications_fields (applicationId : jsstring)
    (newStatus : ApplicationStatus.t) (l : list Application.t) :
  map Application.id (patchApplications applicationId newStatus l)
  = map Application.id l
  /\ map Application.contributor_user_id
       (patchApplications applicationId newStatus l)
     = map Application.contributor_user_id l
  /\ map Application.proposal_text
       (patchApplications applicationId newStatus l)
     = map Application.proposal_text l.
Proof.
  unfold patchApplications. rewrite !map_map.
  repeat split; apply map_ext; intros a;
    destruct (strict_eq (Application.id a) applicationId); reflexivity.
Qed.

Lemma patchApplications_again (applicationId : jsstring)
    (s1 s2 : ApplicationStatus.t) (l : list Application.t) :
  patchApplications applicationId s2 (patchApplications applicationId s1 l)
  = patchApplications applicationId s2 l.
Proof.
  unfold patchApplications. rewrite map_map. apply map_ext. intros a.
  destruct (strict_eq (Application.id a) applicationId) eqn:E; simpl;
    now rewrite E.
Qed.

Lemma applications_after_update (newStatus : ApplicationStatus.t)
    (f : list Application.t -> list Application.t) (st : PageState) :
  applications
    ((if ApplicationStatus.eqb newStatus ApplicationStatus.ACCEPTED
      then updProject markInProgress else fun x => x)
       (updApplications f st))
  = f (applications st).
Proof. destruct (ApplicationStatus.eqb _ _); reflexivity. Qed.



(** X11. Whatever the backend answers, a status update never adds,
    drops or reorders applications and never touches their identifiers,
    contributors or proposals; the messages, the owner of the project and
    its milestones are left alone too. *)
Theorem status_update_frame (backend : Backend) (ctx : Context)
    (snap st : PageState) (applicationId : jsstring)
    (newStatus : ApplicationStatus.t) :
  let after :=
    page (snd (run (handleApplicationStatusUpdate backend ctx snap
                      applicationId newStatus) st)) in
  map Application.id (applications after)
  = map Application.id (applications st)
  /\ map Application.contributor_user_id (applications after)
     = map Application.contributor_user_id (applications st)
  /\ map Application.proposal_text (applications after)
     = map Application.proposal_text (applications st)
  /\ messages after = messages st
  /\ option_map Project.posted_by_user_id (project after)
     = option_map Project.posted_by_user_id (project st)
  /\ option_map Project.milestones (project after)
     = option_map Project.milestones (project st).
Proof.
  destruct (patchApplications_fields applicationId newStatus
              (applications st)) as (Hid & Hc & Hp).
  unfold handleApplicationStatusUpdate. run_handler.
  split_cases; cbn [applications messages project updApplications];
    rewrite ?Hid, ?Hc, ?Hp; repeat split;
    destruct (project st); reflexivity.
Qed.

(** X12. After the owner accepted an application, the local state gives
    its contributor chat access on the next derivation, and nobody can
    apply to the project any more. *)
Theorem accepted_applicant_gains_chat (backend : Backend) (ctx : Context)
    (snap st : PageState) (applicationId : jsstring)
    (r : Reply Application.t) (p : Project.t) (a : Application.t)
    (viewer : User.t) :
  isOwner (permissionsOf ctx snap) = true ->
  project snap <> None ->
  updateApplicationStatus backend applicationId ApplicationStatus.ACCEPTED
    = Resolved r ->
  reply_error r = None ->
  project st = Some p ->
  In a (applications st) -> Application.id a = applicationId ->
  User.id viewer = Application.contributor_user_id a ->
  let after :=
    page (snd (run (handleApplicationStatusUpdate backend ctx snap
                      applicationId ApplicationStatus.ACCEPTED) st)) in
  canChat (derivePermissions (Some viewer) (project after)
             (applications after)) = true
  /\ forall anyone,
       canApply (derivePermissions (Some anyone) (project after)
                   (applications after)) = false.
Proof.
  intros Hown Hproj Hans Herr Hp Hin Hid Hv after. unfold after.
  rewrite (handleApplicationStatusUpdate_success backend ctx snap st
             applicationId ApplicationStatus.ACCEPTED r Hown Hproj Hans Herr).
  simpl. rewrite Hp. simpl. split.
  - apply orb_true_iff. right. apply find_some_iff.
    exists (Application.with_status a ApplicationStatus.ACCEPTED). split.
    + unfold patchApplications. apply in_map_iff. exists a.
      split; [|exact Hin].
      now rewrite (proj2 (strict_eq_iff _ _) Hid).
    + simpl. rewrite Hv, strict_eq_refl. reflexivity.
  - intros anyone. apply andb_false_r.
Qed.

Lemma accepted_applicant_gains_chat_witness :
  let after :=
    page (snd (run (handleApplicationStatusUpdate Sample.okBackend
                      Sample.ownerCtx Sample.loaded (js "a1")
                      ApplicationStatus.ACCEPTED) Sample.loaded)) in
  canChat (derivePermissions (Some Sample.applicant) (project after)
             (applications after)) = true
  /\ forall anyone,
       canApply (derivePermissions (Some anyone) (project after)
                   (applications after)) = false.
Proof.
  apply (accepted_applicant_gains_chat Sample.okBackend Sample.ownerCtx
           Sample.loaded Sample.loaded (js "a1")
           {| data := None; reply_error := None |}
           Sample.project1 Sample.application1 Sample.applicant);
    try reflexivity.
  - discriminate.
  - left. reflexivity.
Defined.

(** X13. Two successful status updates of the same application in a
    row leave the list as the second one alone would: the last status
    wins, and repeating an update changes nothing more. *)
Theorem status_updates_last_wins (backend : Backend) (ctx : Context)
    (snap1 snap2 st : PageState) (applicationId : jsstring)
    (s1 s2 : ApplicationStatus.t) (r1 r2 : Reply Application.t) :
  isOwner (permissionsOf ctx snap1) = true -> project snap1 <> None ->
  isOwner (permissionsOf ctx snap2) = true -> project snap2 <> None ->
  updateApplicationStatus backend applicationId s1 = Resolved r1 ->
  reply_error r1 = None ->
  updateApplicationStatus backend applicationId s2 = Resolved r2 ->
  reply_error r2 = None ->
  let first :=
    page (snd (run (handleApplicationStatusUpdate backend ctx snap1
                      applicationId s1) st)) in
  applications
    (page (snd (run (handleApplicationStatusUpdate backend ctx snap2
                       applicationId s2) first)))
  = applications
      (page (snd (run (handleApplicationStatusUpdate backend ctx snap2
                         applicationId s2) st))).
Proof.
  intros Ho1 Hp1 Ho2 Hp2 Ha1 He1 Ha2 He2 first. unfold first.
  rewrite (handleApplicationStatusUpdate_success backend ctx snap1 st
             applicationId s1 r1 Ho1 Hp1 Ha1 He1).
  rewrite !(handleApplicationStatusUpdate_success backend ctx snap2 _
              applicationId s2 r2 Ho2 Hp2 Ha2 He2).
  cbn [snd page]. rewrite !applications_after_update.
  apply patchApplications_again.
Qed.

Lemma status_updates_last_wins_witness :
  let first :=
    page (snd (run (handleApplicationStatusUpdate Sample.okBackend
                      Sample.ownerCtx Sample.loaded (js "a1")
                      ApplicationStatus.SHORTLISTED) Sample.loaded)) in
  applications
    (page (snd (run (handleApplicationStatusUpdate Sample.okBackend
                       Sample.ownerCtx Sample.loaded (js "a1")
                       ApplicationStatus.REJECTED) first)))
  = applications
      (page (snd (run (handleApplicationStatusUpdate Sample.okBackend
                         Sample.ownerCtx Sample.loaded (js "a1")
                         ApplicationStatus.REJECTED) Sample.loaded))).
Proof.
  apply (status_updates_last_wins Sample.okBackend Sample.ownerCtx
           Sample.loaded Sample.loaded Sample.loaded (js "a1")
           ApplicationStatus.SHORTLISTED ApplicationStatus.REJECTED
           {| data := None; reply_error := None |}
           {| data := None; reply_error := None |});
    try reflexivity; discriminate.
Defined.

(* ================================================================== *)
(** ** More on milestone completion *)

Lemma patchMilestones_again (milestoneId : jsstring)
    (returned : option Milestone.t) (prev : option Project.t) :
  patchMilestones milestoneId returned
    (patchMilestones milestoneId returned prev)
  = patchMilestones milestoneId returned prev.
Proof.
  destruct prev as [p|]; [|reflexivity].
  unfold patchMilestones. f_equal. unfold Project.with_milestones. simpl.
  f_equal. destruct (Project.milestones p) as [ms|]; [|reflexivity].
  simpl. f_equal. rewrite map_map. apply map_ext. intros m.
  destruct (strict_eq (Milestone.id m) milestoneId) eqn:E.
  - destruct returned as [d|].
    + destruct (strict_eq (Milestone.id d) milestoneId); reflexivity.
    + simpl. now rewrite E.
  - now rewrite E.
Qed.

(** X14. Marking a milestone complete twice, with the same answer of
    the server, leaves the local project as marking it once does. *)
Theorem milestone_complete_idempotent (backend : Backend) (ctx : Context)
    (snap1 snap2 st : PageState) (pid milestoneId : jsstring)
    (r : Reply Milestone.t) :
  isOwner (permissionsOf ctx snap1) = true ->
  isOwner (permissionsOf ctx snap2) = true ->
  projectId ctx = Some pid -> pid <> [] ->
  updateMilestoneStatus backend milestoneId pid MilestoneStatus.COMPLETED
    = Resolved r ->
  reply_error r = None ->
  let once :=
    page (snd (run (handleMarkMilestoneComplete backend ctx snap1
                      milestoneId) st)) in
  project
    (page (snd (run (handleMarkMilestoneComplete backend ctx snap2
                       milestoneId) once)))
  = project once.
Proof.
  intros Ho1 Ho2 Hp Hne Hans Herr once. unfold once.
  rewrite (handleMarkMilestoneComplete_success backend ctx snap1 st pid
             milestoneId r Ho1 Hp Hne Hans Herr).
  rewrite (handleMarkMilestoneComplete_success backend ctx snap2 _ pid
             milestoneId r Ho2 Hp Hne Hans Herr).
  simpl. apply patchMilestones_again.
Qed.

Lemma milestone_complete_idempotent_witness :
  let once :=
    page (snd (run (handleMarkMilestoneComplete Sample.okBackend
                      Sample.ownerCtx Sample.loaded (js "m1"))
                   Sample.loaded)) in
  project
    (page (snd (run (handleMarkMilestoneComplete Sample.okBackend
                       Sample.ownerCtx Sample.loaded (js "m1")) once)))
  = project once.
Proof.
  apply (milestone_complete_idempotent Sample.okBackend Sample.ownerCtx
           Sample.loaded Sample.loaded Sample.loaded (js "p1") (js "m1")
           {| data := None; reply_error := None |});
    try reflexivity; discriminate.
Defined.



(* ================================================================== *)
(** ** The two loaders *)

Lemma or_str_nonempty (m : option jsstring) (d : jsstring) :
  d <> [] -> or_str m d <> [].
Proof. destruct m as [[|c m]|]; simpl; auto; discriminate. Qed.

(** X16. A project load that fails (a rejected promise, an error, or
    neither error nor data) records a message that is never empty, posts
    that same message as the one error notification, ends the loading
    state and keeps the project and applications held before; the page
    then renders the error with that message. Without error and data the
    message is "Project not found". *)
Theorem project_load_failure_recorded (backend : Backend) (ctx : Context)
    (st : PageState) (pid : jsstring) :
  projectId ctx = Some pid -> pid <> [] ->
  (callFailed (getProjectById backend pid) = true
   \/ exists r, getProjectById backend pid = Resolved r
                /\ reply_error r = None /\ data r = None) ->
  let after := snd (run (fetchProjectDetails backend ctx) st) in
  exists msg,
    msg <> []
    /\ error (page after) = Some msg
    /\ notifications (trace after)
       = [AddNotification msg NotificationType.ERROR None]
    /\ isLoading (page after) = false
    /\ project (page after) = project st
    /\ applications (page after) = applications st
    /\ render ctx (page after) = ErrorView msg
    /\ (callFailed (getProjectById backend pid) = false ->
          msg = js "Project not found").
Proof.
  intros Hp Hne Hfail after. unfold after, fetchProjectDetails.
  rewrite Hp, (truthy_str_nonempty pid Hne). run_handler.
  assert (Hmsg : forall m,
            or_str m (js "Failed to load project details.") <> [])
    by (intros m; apply or_str_nonempty; discriminate).
  destruct (getProjectById backend pid) as [r|e] eqn:E; simpl in *.
  - destruct (reply_error r) as [e|] eqn:Er; simpl.
    + exists (or_str (message e) (js "Failed to load project details.")).
      unfold render. simpl. rewrite (truthy_str_nonempty _ (Hmsg _)).
      repeat split; auto. discriminate.
    + destruct Hfail as [Hf | (r' & Hr' & _ & Hd)]; [discriminate|].
      injection Hr' as <-. rewrite Hd. simpl.
      exists (js "Project not found"). repeat split. discriminate.
  - exists (or_str (message e) (js "Failed to load project details.")).
    unfold render. simpl. rewrite (truthy_str_nonempty _ (Hmsg _)).
    repeat split; auto. discriminate.
Qed.

Lemma project_load_failure_recorded_witness :
  let after :=
    snd (run (fetchProjectDetails Sample.failingBackend Sample.ownerCtx)
             Sample.loaded) in
  exists msg,
    msg <> []
    /\ error (page after) = Some msg
    /\ notifications (trace after)
       = [AddNotification msg NotificationType.ERROR None]
    /\ isLoading (page after) = false
    /\ project (page after) = project Sample.loaded
    /\ applications (page after) = applications Sample.loaded
    /\ render Sample.ownerCtx (page after) = ErrorView msg
    /\ (callFailed (getProjectById Sample.failingBackend (js "p1")) = false ->
          msg = js "Project not found").
Proof.
  apply (project_load_failure_recorded Sample.failingBackend Sample.ownerCtx
           Sample.loaded (js "p1")).
  - reflexivity.
  - discriminate.
  - left. reflexivity.
Defined.

(** X17. A project load that succeeds stores the record, takes the
    application list from it (an empty list when the record has none),
    clears the error and the loading state, makes the one call and posts
    nothing; the chat messages and the compose state are left alone. *)
Theorem project_load_success (backend : Backend) (ctx : Context)
    (st : PageState) (pid : jsstring) (r : Reply Project.t) (d : Project.t) :
  projectId ctx = Some pid -> pid <> [] ->
  getProjectById backend pid = Resolved r ->
  reply_error r = None -> data r = Some d ->
  let after := snd (run (fetchProjectDetails backend ctx) st) in
  project (page after) = Some d
  /\ applications (page after)
     = match Project.applications d with Some apps => apps | None => [] end
  /\ error (page after) = None
  /\ isLoading (page after) = false
  /\ trace after = [GetProjectById pid]
  /\ messages (page after) = messages st
  /\ newMessage (page after) = newMessage st
  /\ attachment (page after) = attachment st.
Proof.
  intros Hp Hne Hans Herr Hd after. unfold after, fetchProjectDetails.
  rewrite Hp, (truthy_str_nonempty pid Hne). run_handler.
  rewrite Hans. simpl. rewrite Herr, Hd. simpl. repeat split.
Qed.

Lemma project_load_success_witness :
  let after :=
    snd (run (fetchProjectDetails Sample.okBackend Sample.ownerCtx)
             (initialState false)) in
  project (page after) = Some Sample.project1
  /\ applications (page after)
     = match Project.applications Sample.project1 with
       | Some apps => apps
       | None => []
       end
  /\ error (page after) = None
  /\ isLoading (page after) = false
  /\ trace after = [GetProjectById (js "p1")]
  /\ messages (page after) = messages (initialState false)
  /\ newMessage (page after) = newMessage (initialState false)
  /\ attachment (page after) = attachment (initialState false).
Proof.
  apply (project_load_success Sample.okBackend Sample.ownerCtx
           (initialState false) (js "p1")
           {| data := Some Sample.project1; reply_error := None |}
           Sample.project1);
    try reflexivity.
  discriminate.
Defined.

(** X18. Without a project identifier in the route (missing or empty)
    the loader returns at once: no call, no notification, no change. A
    page in its first state therefore keeps showing the spinner. *)
Theorem page_without_project_id_keeps_loading (backend : Backend)
    (ctx : Context) (st : PageState) (applying : bool) :
  truthy_ostr (projectId ctx) = false ->
  run (fetchProjectDetails backend ctx) st
  = (Normal tt, {| page := st; trace := [] |})
  /\ render ctx
       (page (snd (run (fetchProjectDetails backend ctx)
                     (initialState applying))))
     = SpinnerView.
Proof.
  intros H. unfold run, fetchProjectDetails.
  destruct (projectId ctx) as [pid|]; simpl in *.
  - rewrite H. simpl. split; reflexivity.
  - split; reflexivity.
Qed.

Lemma page_without_project_id_keeps_loading_witness :
  let ctx := {| projectId := Some []; user := Some Sample.lead |} in
  run (fetchProjectDetails Sample.okBackend ctx) Sample.loaded
  = (Normal tt, {| page := Sample.loaded; trace := [] |})
  /\ render ctx
       (page (snd (run (fetchProjectDetails Sample.okBackend ctx)
                     (initialState true))))
     = SpinnerView.
Proof.
  apply (page_without_project_id_keeps_loading Sample.okBackend
           {| projectId := Some []; user := Some Sample.lead |}
           Sample.loaded true).
  reflexivity.
Defined.

(** X19. The chat history is fetched only for a viewer who may chat
    and only with a project identifier: otherwise the loader makes no
    call and changes nothing. *)
Theorem chat_history_requires_permission (backend : Backend)
    (ctx : Context) (snap st : PageState) :
  canChat (permissionsOf ctx snap) = false
  \/ truthy_ostr (projectId ctx) = false ->
  run (fetchMessages backend ctx snap) st
  = (Normal tt, {| page := st; trace := [] |}).
Proof.
  intros H. unfold run, fetchMessages.
  destruct (projectId ctx) as [pid|]; [|reflexivity]. simpl in H.
  destruct H as [-> | ->]; simpl; [reflexivity|].
  now rewrite orb_true_r.
Qed.

Lemma chat_history_requires_permission_witness :
  let visitor :=
    {| projectId := Some (js "p1"); user := Some Sample.applicant |} in
  run (fetchMessages Sample.okBackend visitor Sample.loaded) Sample.loaded
  = (Normal tt, {| page := Sample.loaded; trace := [] |}).
Proof.
  apply (chat_history_requires_permission Sample.okBackend
           {| projectId := Some (js "p1"); user := Some Sample.applicant |}
           Sample.loaded Sample.loaded).
  left. reflexivity.
Defined.

(** X20. A chat history that loads replaces the live message list as a
    whole (by the empty list when no rows come back): messages the
    realtime feed had merged before the answer are not kept unless the
    answer holds them. Nothing is posted. *)
Theorem chat_history_replaces_messages (backend : Backend) (ctx : Context)
    (snap st : PageState) (pid : jsstring) (r : Reply (list Message.t)) :
  projectId ctx = Some pid -> pid <> [] ->
  canChat (permissionsOf ctx snap) = true ->
  selectMessages backend pid = Resolved r -> reply_error r = None ->
  let after := snd (run (fetchMessages backend ctx snap) st) in
  messages (page after) = match data r with Some msgs => msgs | None => [] end
  /\ trace after = [SelectMessages pid]
  /\ project (page after) = project st
  /\ applications (page after) = applications st
  /\ newMessage (page after) = newMessage st.
Proof.
  intros Hp Hne Hchat Hans Herr after. unfold after, fetchMessages.
  rewrite Hp, Hchat, (truthy_str_nonempty pid Hne). run_handler.
  rewrite Hans. simpl. rewrite Herr. repeat split.
Qed.

Lemma chat_history_replaces_messages_witness :
  let st := updMessages (fun _ => [Sample.message2]) Sample.loaded in
  let after :=
    snd (run (fetchMessages Sample.okBackend Sample.ownerCtx Sample.loaded)
             st) in
  messages (page after) = [Sample.message1]
  /\ trace after = [SelectMessages (js "p1")]
  /\ project (page after) = project st
  /\ applications (page after) = applications st
  /\ newMessage (page after) = newMessage st.
Proof.
  apply (chat_history_replaces_messages Sample.okBackend Sample.ownerCtx
           Sample.loaded
           (updMessages (fun _ => [Sample.message2]) Sample.loaded)
           (js "p1")
           {| data := Some [Sample.message1]; reply_error := None |});
    try reflexivity.
  discriminate.
Defined.

(* ================================================================== *)
(** ** What the loaded page shows *)

Lemma accepted_has_applied (uid : jsstring) (apps : list Application.t) :
  find (fun app => strict_eq (Application.contributor_user_id app) uid) apps
  = None ->
  find (fun app =>
          strict_eq (Application.contributor_user_id app) uid
          && ApplicationStatus.eqb (Application.status app)
               ApplicationStatus.ACCEPTED) apps
  = None.
Proof.
  rewrite !find_none_iff. intros H x Hx. now rewrite (H x Hx).
Qed.

(** X21. The Apply button and the application form are never shown
    together, and a viewer who is offered either of them sees neither the
    applied banner, nor the chat, nor the edit link, nor the list of
    received applications. *)
Theorem apply_controls_exclusive (ctx : Context) (st : PageState)
    (p : Project.t) :
  let c := controls ctx st p in
  (showApplyButton c && showApplicationForm c = false)
  /\ (showApplyButton c = true \/ showApplicationForm c = true ->
      showAppliedBanner c = false /\ showChat c = false
      /\ showEditLink c = false /\ showApplications c = false).
Proof.
  assert (Hfin : forall own role opened applying pidok applied accepted,
            (applied = false -> accepted = false) ->
            ((role && negb own && negb applied && opened && negb applying)
             && (applying && (role && negb own && negb applied && opened))
             = false)
            /\ ((role && negb own && negb applied && opened && negb applying)
                = true
                \/ applying && (role && negb own && negb applied && opened)
                   = true ->
                applied && negb own = false
                /\ own || accepted = false
                /\ own && pidok = false /\ own && pidok = false)).
  { intros [] [] [] [] [] [] [] H; simpl; split; try reflexivity;
      intros [E|E]; try discriminate E; repeat split;
      try reflexivity; now apply H. }
  unfold controls, permissionsOf, derivePermissions.
  destruct (project st) as [q|], (user ctx) as [u|]; simpl;
    try (split; [reflexivity | intros _; repeat split]).
  apply Hfin. intros E. apply truthy_false_iff in E.
  apply truthy_false_iff. now apply accepted_has_applied.
Qed.

(** X22. On an application card the buttons never pass the status the
    application already has, nor PENDING; an ACCEPTED or REJECTED
    application has no buttons, so that after Accept or Reject went
    through the card offers nothing more, and after Shortlist it offers
    Accept and Reject. *)
Theorem decisions_are_final_in_ui (app : Application.t)
    (s : ApplicationStatus.t) :
  In s (offeredStatuses app) ->
  s <> Application.status app
  /\ s <> ApplicationStatus.PENDING
  /\ offeredStatuses (Application.with_status app s)
     = match s with
       | ApplicationStatus.SHORTLISTED =>
         [ApplicationStatus.ACCEPTED; ApplicationStatus.REJECTED]
       | _ => []
       end.
Proof.
  unfold offeredStatuses. destruct app as [i c st t]. simpl.
  destruct st; simpl; intros H;
    repeat (destruct H as [<-|H]; [repeat split; discriminate|]);
    destruct H.
Qed.

Lemma decisions_are_final_in_ui_witness :
  ApplicationStatus.ACCEPTED <> Application.status Sample.application2
  /\ ApplicationStatus.ACCEPTED <> ApplicationStatus.PENDING
  /\ offeredStatuses
       (Application.with_status Sample.application2
          ApplicationStatus.ACCEPTED)
     = [].
Proof.
  apply (decisions_are_final_in_ui Sample.application2
           ApplicationStatus.ACCEPTED).
  left. reflexivity.
Defined.

(** X23. The name and institution of a poster who asked to be
    anonymous are replaced by "Anonymous Researcher" and the empty string
    for every viewer who neither owns the project nor has an ACCEPTED
    application in the list, a signed-out visitor included; the owner and
    accepted contributors get the real name. *)
Theorem anonymous_poster_hidden (o : PostedByUser.t)
    (user : option User.t) (p : Project.t) (apps : list Application.t) :
  PostedByUser.is_anonymous o = true ->
  let perms := derivePermissions user (Some p) apps in
  ((forall u, user = Some u ->
      User.id u <> Project.posted_by_user_id p
      /\ forall a, In a apps ->
           Application.contributor_user_id a = User.id u ->
           Application.status a <> ApplicationStatus.ACCEPTED) ->
   displayUserName (Some o) perms = Some (js "Anonymous Researcher")
   /\ displayUserInstitution (Some o) perms = [])
  /\ (canChat perms = true ->
      displayUserName (Some o) perms = PostedByUser.name o).
Proof.
  intros Hanon perms. unfold perms, displayUserName, displayUserInstitution,
    hidesIdentity. rewrite Hanon. split.
  - intros H. destruct user as [u|]; [|split; reflexivity].
    destruct (H u eq_refl) as [Hown Hacc]. simpl.
    rewrite (proj2 (strict_eq_false_iff _ _) Hown). simpl.
    assert (E : find (fun app =>
                        strict_eq (Application.contributor_user_id app)
                          (User.id u)
                        && ApplicationStatus.eqb (Application.status app)
                             ApplicationStatus.ACCEPTED) apps = None).
    { apply find_none_iff. intros a Ha.
      destruct (strict_eq (Application.contributor_user_id a) (User.id u))
        eqn:Ec; [|reflexivity].
      apply strict_eq_iff in Ec. simpl.
      destruct (ApplicationStatus.eqb (Application.status a)
                  ApplicationStatus.ACCEPTED) eqn:Es; [|reflexivity].
      apply ApplicationStatus_eqb_iff in Es.
      exfalso. exact (Hacc a Ha Ec Es). }
    rewrite E. split; reflexivity.
  - destruct user as [u|]; simpl; [|discriminate].
    intros Hchat.
    destruct (strict_eq (User.id u) (Project.posted_by_user_id p));
      simpl in *; [reflexivity|].
    rewrite Hchat. reflexivity.
Qed.

Lemma anonymous_poster_hidden_witness :
  let o := {| PostedByUser.name := Some (js "Dr. Lead");
              PostedByUser.institution := Some (js "Uni");
              PostedByUser.is_anonymous := true |} in
  let perms :=
    derivePermissions (Some Sample.applicant) (Some Sample.project1)
      [Sample.application1; Sample.application2] in
  ((forall u, Some Sample.applicant = Some u ->
      User.id u <> Project.posted_by_user_id Sample.project1
      /\ forall a, In a [Sample.application1; Sample.application2] ->
           Application.contributor_user_id a = User.id u ->
           Application.status a <> ApplicationStatus.ACCEPTED) ->
   displayUserName (Some o) perms = Some (js "Anonymous Researcher")
   /\ displayUserInstitution (Some o) perms = [])
  /\ (canChat perms = true ->
      displayUserName (Some o) perms = PostedByUser.name o).
Proof.
  apply (anonymous_poster_hidden
           {| PostedByUser.name := Some (js "Dr. Lead");
              PostedByUser.institution := Some (js "Uni");
              PostedByUser.is_anonymous := true |}
           (Some Sample.applicant) Sample.project1
           [Sample.application1; Sample.application2]).
  reflexivity.
Defined.

(** X24. An enabled Send button means the handler will go to the
    backend: with a project identifier and a signed-in user, the run of
    the handler created by the same render starts with a backend call (the
    upload when a file is attached, [sendMessage] otherwise). *)
Theorem enabled_send_reaches_backend (backend : Backend) (ctx : Context)
    (snap st : PageState) (p : Project.t) (pid : jsstring) (u : User.t) :
  sendDisabled (controls ctx snap p) = false ->
  projectId ctx = Some pid -> pid <> [] -> user ctx = Some u ->
  exists call rest,
    trace (snd (run (handleSendMessage backend ctx snap) st)) = call :: rest
    /\ isBackendCall call = true
    /\ (attachment snap <> None -> isUpload call = true)
    /\ (attachment snap = None -> isSendMessage call = true).
Proof.
  intros Hbtn Hp Hne Hu. unfold controls in Hbtn. simpl in Hbtn.
  apply orb_false_iff in Hbtn. destruct Hbtn as [Hguard _].
  unfold handleSendMessage. rewrite Hp, Hu, Hguard.
  rewrite (truthy_str_nonempty pid Hne). run_handler.
  destruct (attachment snap) as [f|]; simpl.
  - destruct (uploadFile backend f (js "project-chat-attachments"))
      as [up|e]; simpl.
    + destruct (truthy (upload_error up) || negb (truthy_ostr (publicUrl up)));
        simpl.
      * eexists _, _. repeat split; congruence.
      * destruct (sendMessage backend pid (trim (newMessage snap))
                    (publicUrl up)) as [r|e]; simpl;
          [destruct (reply_error r); simpl; [|destruct (data r); simpl]|];
          eexists _, _; repeat split; congruence.
    + eexists _, _. repeat split; congruence.
  - destruct (sendMessage backend pid (trim (newMessage snap)) None)
      as [r|e]; simpl;
      [destruct (reply_error r); simpl; [|destruct (data r); simpl]|];
      eexists _, _; repeat split; congruence.
Qed.

Lemma enabled_send_reaches_backend_witness :
  exists call rest,
    trace (snd (run (handleSendMessage Sample.okBackend Sample.ownerCtx
                       Sample.composing) Sample.composing))
    = call :: rest
    /\ isBackendCall call = true
    /\ (attachment Sample.composing <> None -> isUpload call = true)
    /\ (attachment Sample.composing = None -> isSendMessage call = true).
Proof.
  apply (enabled_send_reaches_backend Sample.okBackend Sample.ownerCtx
           Sample.composing Sample.composing Sample.project1 (js "p1")
           Sample.lead);
    try reflexivity.
  discriminate.
Defined.

(* ================================================================== *)
(** ** More on the realtime subscription *)

Section SubscriptionInvariants.

Import ChatSubscription.

Lemma live_after_cleanup (w : World) :
  List.length (live (runPendingCleanup w)) <= List.length (live w).
Proof.
  unfold runPendingCleanup. destruct (pendingCleanup w) as [[ch|]|]; simpl;
    auto. apply filter_length_le.
Qed.

Lemma step_live_bound (w : World) (s : Step) :
  List.length (live w) <= subscriptions w ->
  List.length (live (step w s)) <= subscriptions (step w s).
Proof.
  intros H. pose proof (live_after_cleanup w) as Hl.
  destruct (runPendingCleanup_keeps w) as (Hs & _ & _).
  unfold subscriptions in *.
  destruct s as [pid cc|]; unfold step.
  - destruct (match lastDeps w with
              | Some d => sameDeps d (pid, cc)
              | None => false
              end); [exact H|].
    unfold effectBody. destruct pid as [p|]; cbn [live actions].
    + destruct (cc && truthy_str p && negb (truthy (chatChannelState w)));
        cbn [live actions].
      * rewrite filter_app, !length_app. simpl. lia.
      * lia.
    + lia.
  - cbn [live actions]. lia.
Qed.

Lemma steps_live_bound (l : list Step) :
  List.length (live (steps l)) <= subscriptions (steps l).
Proof.
  unfold steps.
  assert (H : forall w, List.length (live w) <= subscriptions w ->
                        List.length (live (fold_left step l w))
                        <= subscriptions (fold_left step l w)).
  { induction l as [|s l IH]; intros w Hw; [exact Hw|].
    simpl. apply IH. now apply step_live_bound. }
  apply H. unfold subscriptions. simpl. lia.
Qed.

(** X25. While the page stays mounted, whatever the sequence of
    renders (changes of the project identifier and of the chat permission
    included), the effect opens at most one channel, so at most one is
    live. *)
Theorem effect_opens_at_most_one_channel (l : list Step) :
  forallb isRender l = true ->
  subscriptions (steps l) <= 1 /\ List.length (live (steps l)) <= 1.
Proof.
  intros Hl. pose proof (one_subscription_while_mounted l Hl) as H1.
  pose proof (steps_live_bound l) as H2. lia.
Qed.

(** X26. Once the state cell holds a channel, no later render of the
    mounted page replaces or clears it, and the effect opens nothing any
    more: after that channel has been removed the chat stays without a
    subscription until the page is mounted again. *)
Theorem stored_channel_is_permanent (l : list Step) (w : World)
    (ch : Channel.t) :
  forallb isRender l = true ->
  chatChannelState w = Some ch ->
  chatChannelState (fold_left step l w) = Some ch
  /\ subscriptions (fold_left step l w) = subscriptions w
  /\ (live w = [] -> live (fold_left step l w) = []).
Proof.
  revert w. induction l as [|s l IH]; intros w Hl Hch; [simpl; auto|].
  simpl in Hl. apply andb_true_iff in Hl. destruct Hl as [Hs Hl].
  destruct s as [pid cc|]; [|discriminate].
  assert (Hstep : chatChannelState (step w (Render pid cc)) = Some ch
                  /\ subscriptions (step w (Render pid cc)) = subscriptions w
                  /\ (live w = [] -> live (step w (Render pid cc)) = [])).
  { unfold step.
    destruct (match lastDeps w with
              | Some d => sameDeps d (pid, cc)
              | None => false
              end); [auto|].
    rewrite Hch, effectBody_guarded. cbn [chatChannelState live].
    destruct (runPendingCleanup_keeps w) as (Hsub & Hc & _).
    unfold subscriptions in *. cbn [actions].
    rewrite Hc, Hsub. repeat split; auto.
    intros Hlive. pose proof (live_after_cleanup w) as Hle.
    rewrite Hlive in Hle. simpl in Hle.
    destruct (live (runPendingCleanup w)); [reflexivity | simpl in Hle; lia]. }
  destruct Hstep as (H1 & H2 & H3).
  destruct (IH (step w (Render pid cc)) Hl H1) as (I1 & I2 & I3).
  change (fold_left step (Render pid cc :: l) w)
    with (fold_left step l (step w (Render pid cc))).
  split; [exact I1|]. split; [now rewrite I2|].
  intros Hlive. apply I3. now apply H3.
Qed.

Lemma stored_channel_is_permanent_witness :
  let p1 := Some (js "p1") in
  let p2 := Some (js "p2") in
  let ch := {| Channel.topic := js "project-chat-p1"; Channel.uid := 0 |} in
  let w := steps [Render p1 true] in
  let l := [Render p1 false; Render p2 true; Render p1 true] in
  chatChannelState (fold_left step l w) = Some ch
  /\ subscriptions (fold_left step l w) = subscriptions w
  /\ (live w = [] -> live (fold_left step l w) = []).
Proof.
  apply (stored_channel_is_permanent
           [Render (Some (js "p1")) false; Render (Some (js "p2")) true;
            Render (Some (js "p1")) true]
           (steps [Render (Some (js "p1")) true])
           {| Channel.topic := js "project-chat-p1"; Channel.uid := 0 |});
    reflexivity.
Defined.

End SubscriptionInvariants.

Lemma effect_opens_at_most_one_channel_witness :
  let l := [ChatSubscription.Render (Some (js "p1")) true;
            ChatSubscription.Render (Some (js "p2")) true;
            ChatSubscription.Render (Some (js "p2")) false;
            ChatSubscription.Render (Some (js "p1")) true] in
  ChatSubscription.subscriptions (ChatSubscription.steps l) <= 1
  /\ List.length (ChatSubscription.live (ChatSubscription.steps l)) <= 1.
Proof.
  apply (effect_opens_at_most_one_channel
           [ChatSubscription.Render (Some (js "p1")) true;
            ChatSubscription.Render (Some (js "p2")) true;
            ChatSubscription.Render (Some (js "p2")) false;
            ChatSubscription.Render (Some (js "p1")) true]).
  reflexivity.
Defined.

Section SubscriptionTracking.

Import ChatSubscription.

Lemma tracked_cleanup (w : World) :
  tracked w -> tracked (runPendingCleanup w).
Proof.
  intros H. pose proof H as (Ha & Hb & Hc & Hd & He).
  unfold runPendingCleanup.
  destruct (pendingCleanup w) as [[ch|]|] eqn:E; [|exact H..].
  unfold tracked, opened, effectCleanup in *. cbn [actions live
    chatChannelState pendingCleanup]. rewrite E.
  repeat split.
  - intros c Hin. apply in_app_or in Hin. apply in_or_app. left.
    destruct Hin as [Hin|[Heq|[]]]; [now apply Ha|].
    injection Heq as <-. now apply Hd.
  - intros c Hin. apply filter_In in Hin. apply in_or_app. left.
    apply Hb. tauto.
  - intros c Hc'. apply in_or_app. left. now apply Hc.
  - intros c Hc'. apply in_or_app. left. now apply Hd.
  - intros c Hin. apply in_app_or in Hin.
    destruct Hin as [Hin|[Heq|[]]]; [now apply He | discriminate].
Qed.

Lemma tracked_body (pid : option jsstring) (cc : bool)
    (captured : option Channel.t) (w : World) :
  tracked w -> tracked (effectBody pid cc captured w).
Proof.
  intros H. pose proof H as (Ha & Hb & Hc & Hd & He). unfold effectBody.
  destruct pid as [p|]; [|exact H].
  destruct (cc && truthy_str p && negb (truthy captured)) eqn:G;
    [|exact H].
  unfold tracked, opened in *. cbn [actions live chatChannelState
    pendingCleanup].
  repeat split.
  - intros c Hin. apply in_app_or in Hin. apply in_or_app.
    destruct Hin as [Hin|[Heq|[]]]; [left; now apply Ha | discriminate].
  - intros c Hin. apply in_app_or in Hin. apply in_or_app.
    destruct Hin as [Hin|[<-|[]]]; [left; now apply Hb | right; now left].
  - intros c Hc'. injection Hc' as <-. apply in_or_app. right. now left.
  - intros c Hc'. apply in_or_app. left. now apply Hd.
  - intros c Hin. apply in_app_or in Hin.
    destruct Hin as [Hin|[Heq|[]]]; [now apply He|].
    injection Heq as <-. exists p. split; [|reflexivity].
    destruct p; [|discriminate].
    rewrite andb_false_r in G. discriminate.
Qed.

Lemma opened_after_cleanup (w : World) (ch : Channel.t) :
  opened w ch -> opened (runPendingCleanup w) ch.
Proof.
  unfold opened, runPendingCleanup.
  destruct (pendingCleanup w) as [[c|]|]; simpl; auto.
  intros H. apply in_or_app. now left.
Qed.

Lemma opened_after_body (pid : option jsstring) (cc : bool)
    (captured : option Channel.t) (w : World) (ch : Channel.t) :
  opened w ch -> opened (effectBody pid cc captured w) ch.
Proof.
  unfold opened, effectBody. destruct pid as [p|]; auto.
  destruct (cc && truthy_str p && negb (truthy captured)); simpl; auto.
  intros H. apply in_or_app. now left.
Qed.

Lemma tracked_step (w : World) (s : Step) : tracked w -> tracked (step w s).
Proof.
  intros H. destruct s as [pid cc|]; unfold step.
  - destruct (match lastDeps w with
              | Some d => sameDeps d (pid, cc)
              | None => false
              end); [exact H|].
    pose proof (tracked_body pid cc (chatChannelState w)
                  (runPendingCleanup w) (tracked_cleanup w H))
      as (Ha & Hb & Hc & Hd & He).
    destruct H as (_ & _ & Hstored & _).
    unfold tracked, opened in *.
    cbn [actions live chatChannelState pendingCleanup].
    repeat split; auto.
    intros ch Hcap. injection Hcap as Hcap.
    apply (opened_after_body pid cc (chatChannelState w)).
    apply opened_after_cleanup. now apply Hstored.
  - pose proof (tracked_cleanup w H) as (Ha & Hb & Hc & Hd & He).
    unfold tracked, opened in *.
    cbn [actions live chatChannelState pendingCleanup].
    repeat split; auto; discriminate.
Qed.

(** X27. In every run of the page (renders and unmounts in any order),
    a channel that is released, live, stored in the state cell or
    captured by the pending cleanup is one the effect itself opened, and
    every channel the effect opens is named [project-chat-] followed by a
    project identifier that is not empty. *)
Theorem channels_come_from_the_effect (l : list Step) :
  let w := steps l in
  (forall ch, In (RemoveChannel ch) (actions w) \/ In ch (live w)
              \/ chatChannelState w = Some ch
              \/ pendingCleanup w = Some (Some ch) ->
     In (Subscribe ch) (actions w))
  /\ (forall ch, In (Subscribe ch) (actions w) ->
        exists pid, pid <> []
                    /\ Channel.topic ch = js "project-chat-" ++ pid).
Proof.
  assert (H : forall w, tracked w -> tracked (fold_left step l w)).
  { induction l as [|s l IH]; intros w Hw; [exact Hw|].
    simpl. apply IH. now apply tracked_step. }
  assert (H0 : tracked mount).
  { unfold tracked, opened. simpl.
    repeat split; try discriminate; intros ch []. }
  destruct (H mount H0) as (Ha & Hb & Hc & Hd & He).
  unfold steps. unfold opened in *. split; [|exact He].
  intros ch [Hr|[Hl|[Hs|Hp]]]; auto.
Qed.

End SubscriptionTracking.

(* ================================================================== *)
(** ** The modal dialog *)

Section ModalInvariants.

Import Modal.

Lemma timers_cleared (w : World) :
  quiet w -> timers (runPendingCleanup w) = [].
Proof.
  intros (H1 & _). unfold runPendingCleanup.
  destruct (pendingCleanup w) as [t|] eqn:E.
  - simpl. apply filter_nothing. intros x Hx.
    pose proof (H1 x Hx) as Hx'. injection Hx' as ->.
    now rewrite Nat.eqb_refl.
  - destruct (timers w) as [|x ts]; [reflexivity|].
    specialize (H1 x (or_introl eq_refl)). discriminate.
Qed.

Lemma cleanup_keeps (w : World) :
  showContent (runPendingCleanup w) = showContent w
  /\ created (runPendingCleanup w) = created w.
Proof.
  unfold runPendingCleanup. destruct (pendingCleanup w); simpl; auto.
Qed.

Lemma quiet_step (w : World) (s : Step) : quiet w -> quiet (step w s).
Proof.
  intros Hq. pose proof (timers_cleared w Hq) as Hclr.
  destruct (cleanup_keeps w) as [Hshow Hcre].
  pose proof Hq as (H1 & H2 & H3 & H4).
  destruct s as [isOpen|t|]; unfold step.
  - destruct (match lastDeps w with
              | Some d => Bool.eqb d isOpen
              | None => false
              end); [exact Hq|].
    unfold effectBody. destruct isOpen; unfold quiet;
      cbn [timers pendingCleanup lastDeps showContent created];
      rewrite Hclr; simpl.
    + split; [|split; [|split]].
      * intros t [<-|[]]. reflexivity.
      * intros t Ht. injection Ht as <-. split; [reflexivity | lia].
      * reflexivity.
      * lia.
    + split; [|split; [|split]].
      * intros t [].
      * discriminate.
      * discriminate.
      * lia.
  - destruct (existsb (Nat.eqb t) (timers w)) eqn:E; [|exact Hq].
    apply existsb_exists in E. destruct E as [x [Hx Hxt]].
    apply Nat.eqb_eq in Hxt. subst x.
    unfold quiet. cbn [timers pendingCleanup lastDeps showContent created].
    split; [|split; [|split]].
    + intros x Hin. apply filter_In in Hin. apply H1. tauto.
    + exact H2.
    + intros _. apply (H2 t). now apply H1.
    + pose proof (filter_length_le (fun t0 => negb (Nat.eqb t0 t)) (timers w)).
      lia.
  - unfold quiet. cbn [timers pendingCleanup lastDeps showContent created].
    rewrite Hclr. simpl.
    split; [|split; [|split]].
    + intros t [].
    + discriminate.
    + discriminate.
    + lia.
Qed.

Lemma quiet_steps (l : list Step) : quiet (steps l).
Proof.
  unfold steps.
  assert (H : forall w, quiet w -> quiet (fold_left step l w)).
  { induction l as [|s l IH]; intros w Hw; [exact Hw|].
    simpl. apply IH. now apply quiet_step. }
  apply H. unfold quiet. simpl.
  split; [|split; [|split]].
  - intros t [].
  - discriminate.
  - discriminate.
  - lia.
Qed.

(** X28. In every run of the modal (renders, timeouts and unmounts in
    any order), while the modal is not open the content flag is off and no
    timer is pending, so a late timeout cannot switch the flag on after
    the modal was closed; and at most one timer is pending at any time. *)
Theorem modal_closed_is_quiet (l : list Step) :
  let w := steps l in
  (lastDeps w <> Some true -> showContent w = false /\ timers w = [])
  /\ List.length (timers w) <= 1.
Proof.
  destruct (quiet_steps l) as (H1 & H2 & H3 & H4). simpl.
  split; [|exact H4]. intros Hclosed. split.
  - destruct (showContent (steps l)); [|reflexivity].
    exfalso. apply Hclosed. now apply H3.
  - destruct (timers (steps l)) as [|t ts]; [reflexivity|].
    exfalso. apply Hclosed.
    apply (H2 t). apply H1. now left.
Qed.

(** X29. Opening a modal that is not open arms exactly one timer and
    leaves the content flag off until that timer fires; when it fires the
    flag goes on; when the modal is closed first, the timer is cleared and
    its timeout changes nothing. *)
Theorem modal_opens_after_timer (l : list Step) :
  let w := steps l in
  lastDeps w <> Some true ->
  let opening := step w (Render true) in
  showContent opening = false
  /\ timers opening = [created w]
  /\ showContent (step opening (Timeout (created w))) = true
  /\ step (step opening (Render false)) (Timeout (created w))
     = step opening (Render false)
  /\ showContent (step opening (Render false)) = false.
Proof.
  intros w Hclosed opening.
  pose proof (quiet_steps l) as Hq. fold w in Hq.
  pose proof (timers_cleared w Hq) as Hclr.
  destruct (cleanup_keeps w) as [Hshow Hcre].
  destruct Hq as (H1 & H2 & H3 & H4).
  assert (Hoff : showContent w = false).
  { destruct (showContent w); [|reflexivity].
    exfalso. apply Hclosed. now apply H3. }
  assert (Hop : opening
                = {| showContent := false; lastDeps := Some true;
                     pendingCleanup := Some (created w);
                     timers := [created w]; created := S (created w) |}).
  { unfold opening, step.
    destruct (lastDeps w) as [[|]|]; [congruence| |];
      simpl; rewrite Hclr, Hshow, Hcre, Hoff; reflexivity. }
  rewrite Hop. simpl. rewrite Nat.eqb_refl. simpl. repeat split.
Qed.

Lemma modal_opens_after_timer_witness :
  let w := steps [Render false] in
  let opening := step w (Render true) in
  showContent opening = false
  /\ timers opening = [created w]
  /\ showContent (step opening (Timeout (created w))) = true
  /\ step (step opening (Render false)) (Timeout (created w))
     = step opening (Render false)
  /\ showContent (step opening (Render false)) = false.
Proof.
  apply (modal_opens_after_timer [Render false]). discriminate.
Defined.

End ModalInvariants.
